(** * Integreat CMS: a shallow embedding of the media library, page, site,
      migration and language tree code, and the properties its specification
      states about them.

    Layout: Part I holds the definitions, one module per source file; Part II
    holds the theorems, grouped the same way. *)

From Stdlib Require Import Ascii String ZArith.
From stdpp Require Import gmap strings list fin_maps pretty.

Open Scope string_scope.
Open Scope Z_scope.

Set Warnings "-clear-no-such-hyp".

(* ===================================================================== *)
(** * Part I: definitions                                                 *)
(* ===================================================================== *)

(** ** Python values the code relies on *)

Module Py.

(** The exceptions the modelled code can raise. *)
Inductive exn : Set :=
| DoesNotExist
| MultipleObjectsReturned
| ValueError
| TypeError
| OSError
| ValidationError.

(** A call either returns a value or raises. *)
Inductive result (A : Type) : Type :=
| Ok (a : A)
| Raise (e : exn).
Arguments Ok {A} a.
Arguments Raise {A} e.

Definition bind {A B} (r : result A) (k : A → result B) : result B :=
  match r with
  | Ok a => k a
  | Raise e => Raise e
  end.

(** [str(n)] for an [int]. *)
Definition str_int (n : Z) : string := pretty n.

(** Truth value of an optional string: [None] and [""] are false. *)
Definition truthy_str (s : option string) : bool :=
  match s with
  | Some (String _ _) => true
  | _ => false
  end.

(** Truth value of an optional [int]: [None] and [0] are false. *)
Definition truthy_int (n : option Z) : bool :=
  match n with
  | Some k => negb (k =? 0)
  | None => false
  end.

(** Truth value of an optional object without [__bool__] or [__len__]. *)
Definition truthy_obj {A} (o : option A) : bool :=
  match o with
  | Some _ => true
  | None => false
  end.

(** [s.startswith(p)]. *)
Definition startswith (s p : string) : bool := String.prefix p s.

(** [s.rfind(c)] for a one-character [c]: the highest index holding [c],
    or [-1]. [i] is the index of the head of [s], [acc] the last hit. *)
Fixpoint rfind_from (c : ascii) (s : string) (i acc : Z) : Z :=
  match s with
  | EmptyString => acc
  | String a s' =>
      rfind_from c s' (i + 1) (if Ascii.eqb a c then i else acc)
  end.

Definition rfind (c : ascii) (s : string) : Z := rfind_from c s 0 (-1).

(** The slices [s[:n]] and [s[n:]] for [0 <= n]. *)
Fixpoint take (n : nat) (s : string) : string :=
  match n, s with
  | S n', String a s' => String a (take n' s')
  | _, _ => EmptyString
  end.

Fixpoint drop (n : nat) (s : string) : string :=
  match n, s with
  | S n', String _ s' => drop n' s'
  | _, _ => s
  end.

(** [s[i:i+1] != c]: true also past the end, where the slice is empty. *)
Definition char_differs (s : string) (i : Z) (c : ascii) : bool :=
  match String.get (Z.to_nat i) s with
  | Some a => negb (Ascii.eqb a c)
  | None => true
  end.

(** The [while filenameIndex < dotIndex] loop of [genericpath._splitext];
    [n] bounds the iterations, [dotIndex - filenameIndex] suffice. *)
Fixpoint splitext_loop (n : nat) (p : string) (filenameIndex dotIndex : Z)
  : option (string * string) :=
  match n with
  | O => None
  | S n' =>
      if filenameIndex <? dotIndex then
        if char_differs p filenameIndex "."%char then
          Some (take (Z.to_nat dotIndex) p, drop (Z.to_nat dotIndex) p)
        else splitext_loop n' p (filenameIndex + 1) dotIndex
      else None
  end.

(** [os.path.splitext] (posixpath: separator ["/"], extension mark ["."]). *)
Definition splitext (p : string) : string * string :=
  let sepIndex := rfind "/"%char p in
  let dotIndex := rfind "."%char p in
  let whole := (p, EmptyString) in
  if sepIndex <? dotIndex then
    let filenameIndex := sepIndex + 1 in
    match splitext_loop (Z.to_nat (dotIndex - filenameIndex)) p
            filenameIndex dotIndex with
    | Some r => r
    | None => whole
    end
  else whole.

(** The broken-down local time [time.strftime] formats when called without
    a time argument. *)
Record struct_time : Set := { tm_year : Z; tm_mon : Z }.

(** Two-digit, zero-padded decimal, as [%m] prints a month. *)
Definition two_digits (n : Z) : string :=
  if n <? 10 then "0" +:+ str_int n else str_int n.

(** [time.strftime(fmt)] for the directives the code uses, [%Y] and [%m];
    every other character is copied. *)
Fixpoint strftime (fmt : string) (t : struct_time) : string :=
  match fmt with
  | EmptyString => EmptyString
  | String "%" (String "Y" rest) => str_int (tm_year t) +:+ strftime rest t
  | String "%" (String "m" rest) => two_digits (tm_mon t) +:+ strftime rest t
  | String c rest => String c (strftime rest t)
  end.

End Py.

#[global] Instance result_ret : MRet Py.result := @Py.Ok.
#[global] Instance result_bind : MBind Py.result := λ A B k r, Py.bind r k.
#[global] Instance result_fmap : FMap Py.result :=
  λ A B f r, Py.bind r (λ a, Py.Ok (f a)).

(** ** The parts of Django the models use *)

Module Django.

(** A [FieldFile], the value of a [FileField]: the name of the stored file
    relative to the media root, or no name. *)
Record FieldFile : Set := { name : option string }.

(** [FieldFile.__bool__] is [bool(self.name)]. *)
Definition truthy (f : FieldFile) : bool := Py.truthy_str (name f).

(** [FieldFile._require_file] followed by a storage call [k] on the name:
    the shape of the [url] and [path] properties. *)
Definition with_file (f : FieldFile) (k : string → string)
  : Py.result string :=
  match name f with
  | Some (String a s) => Py.Ok (k (String a s))
  | _ => Py.Raise Py.ValueError
  end.

End Django.

(** ** [cms/models/regions/region.py] *)

Module region.

(** Modelled from the spec: the [Region] model is missing. A region is a
    tenant entity; the code at hand reads nothing of it but [id], its
    primary key. *)
Record Region : Set := { id : Z }.

End region.

(** ** [cms/models/media/media_file.py] *)

Module media_file.

Import Py.

(** The columns of the [MediaFile] model. [id] is [None] until the row is
    inserted; [region] and [parent_directory] are nullable foreign keys;
    [uploaded_date] is filled on insertion. *)
Record MediaFile : Set := {
  id : option Z;
  file : Django.FieldFile;
  thumbnail : Django.FieldFile;
  type : string;
  name : string;
  parent_directory : option Z;
  region : option region.Region;
  alt_text : string;
  uploaded_date : option Z
}.

(** What the functions of the module read from outside their arguments. *)
Record World : Type := {
  (** [settings.BASE_URL] *)
  BASE_URL : string;
  (** the local time [strftime] sees *)
  now : struct_time;
  (** the table behind [MediaFile.objects], by primary key *)
  objects : gmap Z MediaFile;
  (** [storage.url(name)] and [storage.path(name)] of the file storage *)
  storage_url : string → string;
  storage_path : string → string;
  (** [os.path.getmtime(path)]: the modification time, already printed as
      the f-string prints the float, or the exception of a file that
      cannot be read *)
  getmtime : string → result string;
  (** [allowed_media.CHOICES] *)
  CHOICES : list (string * string);
  (** [localize(timezone.localtime(d))] *)
  localize_localtime : option Z → string
}.

(** [MediaFile.objects.get(id=pk)] *)
Definition objects_get (w : World) (pk : option Z) : result MediaFile :=
  match pk with
  | Some k =>
      match objects w !! k with
      | Some m => Ok m
      | None => Raise DoesNotExist
      end
  | None => Raise DoesNotExist
  end.

(** [upload_path(instance, filename)]: the path requested for an uploaded
    file. [requested] is the part below the first [if], reached when the
    instance is new or its row holds no file. *)
Definition upload_path (w : World) (instance : MediaFile) (filename : string)
  : result string :=
  let requested :=
    let region_directory :=
      match region instance with
      | Some r => "sites/" +:+ str_int (region.id r) +:+ "/"
      | None => ""
      end in
    let path :=
      region_directory +:+ strftime "%Y/%m" (now w) +:+ "/" +:+ filename in
    Ok path in
  if truthy_int (id instance) then
    original_instance ← objects_get w (id instance);
    (* [if original_instance.file: return original_instance.file.name] *)
    match Django.name (file original_instance) with
    | Some (String a s) => Ok (String a s)
    | _ => requested
    end
  else requested.

(** [upload_path_thumbnail(instance, filename)]: the path requested for a
    thumbnail. [derived] is the part below the first [if]; [splitext] raises
    on a file without name. *)
Definition upload_path_thumbnail (w : World) (instance : MediaFile)
    (filename : string) : result string :=
  let derived :=
    match Django.name (file instance) with
    | Some file_name =>
        let '(name, extension) := splitext file_name in
        let path := name +:+ "_thumbnail" +:+ extension in
        Ok path
    | None => Raise TypeError
    end in
  if truthy_int (id instance) then
    original_instance ← objects_get w (id instance);
    (* [if original_instance.thumbnail:
          return original_instance.thumbnail.name] *)
    match Django.name (thumbnail original_instance) with
    | Some (String a s) => Ok (String a s)
    | _ => derived
    end
  else derived.

(** The [url] property. *)
Definition url (w : World) (self : MediaFile) : result (option string) :=
  if Django.truthy (file self) then
    u ← Django.with_file (file self) (storage_url w);
    Ok (Some (BASE_URL w +:+ u))
  else Ok None.

(** The [thumbnail_url] property. *)
Definition thumbnail_url (w : World) (self : MediaFile)
  : result (option string) :=
  if negb (Django.truthy (thumbnail self)) then
    if startswith (type self) "image" then url w self
    else Ok None
  else
    u ← Django.with_file (thumbnail self) (storage_url w);
    Ok (Some (BASE_URL w +:+ u)).

(** [dict(choices).get(v)]: the label of the last pair whose key is [v]. *)
Fixpoint label (choices : list (string * string)) (v : string)
  : option string :=
  match choices with
  | [] => None
  | (k, l) :: rest =>
      match label rest v with
      | Some later => Some later
      | None => if String.eqb k v then Some l else None
      end
  end.

(** [get_type_display()]: the label of the choice, the value itself when
    it is no choice. *)
Definition display (choices : list (string * string)) (v : string) : string :=
  default v (label choices v).

(** [self.get_type_display()] over [allowed_media.CHOICES]. *)
Definition get_type_display (w : World) (self : MediaFile) : string :=
  display (CHOICES w) (type self).

(** The values a serialized media file holds. *)
Inductive value : Set :=
| VNone
| VInt (n : Z)
| VStr (s : string)
| VBool (b : bool).

Definition of_int (n : option Z) : value :=
  match n with Some k => VInt k | None => VNone end.

Definition of_str (s : option string) : value :=
  match s with Some t => VStr t | None => VNone end.

(** The dictionary [serialize] returns, given the two values it has
    computed before. *)
Definition serialized (w : World) (self : MediaFile)
    (thumbnail_url1 self_url : option string) : gmap string value :=
  <["id" := of_int (id self)]>
  (<["name" := VStr (name self)]>
  (<["altText" := VStr (alt_text self)]>
  (<["type" := VStr (type self)]>
  (<["typeDisplay" := VStr (get_type_display w self)]>
  (<["thumbnailUrl" := of_str thumbnail_url1]>
  (<["url" := of_str self_url]>
  (<["uploadedDate" := VStr (localize_localtime w (uploaded_date self))]>
  (<["isGlobal" := VBool (negb (truthy_obj (region self)))]> ∅)))))))).

(** [serialize()]: [try] catches the [OSError] of [getmtime] and nothing
    else. *)
Definition serialize (w : World) (self : MediaFile)
  : result (gmap string value) :=
  thumbnail_url0 ← thumbnail_url w self;
  thumbnail_url1 ←
    (if truthy_str thumbnail_url0 then
       path ← Django.with_file (file self) (storage_path w);
       match getmtime w path with
       | Ok mtime => Ok ((λ u, u +:+ "?" +:+ mtime) <$> thumbnail_url0)
       | Raise OSError => Ok thumbnail_url0
       | Raise e => Raise e
       end
     else Ok thumbnail_url0);
  self_url ← url w self;
  Ok (serialized w self thumbnail_url1 self_url).

(** The keys of a serialized media file. *)
Definition keys : gset string :=
  {[ "id"; "name"; "altText"; "type"; "typeDisplay"; "thumbnailUrl"; "url";
     "uploadedDate"; "isGlobal" ]}.

(** The world [w] with another file system behind [getmtime]. *)
Definition with_getmtime (w : World) (g : string → result string) : World :=
  {| BASE_URL := BASE_URL w;
     now := now w;
     objects := objects w;
     storage_url := storage_url w;
     storage_path := storage_path w;
     getmtime := g;
     CHOICES := CHOICES w;
     localize_localtime := localize_localtime w |}.

(** The same instance before it got its primary key. *)
Definition unsaved (instance : MediaFile) : MediaFile :=
  {| id := None;
     file := file instance;
     thumbnail := thumbnail instance;
     type := type instance;
     name := name instance;
     parent_directory := parent_directory instance;
     region := region instance;
     alt_text := alt_text instance;
     uploaded_date := uploaded_date instance |}.

End media_file.

(** ** [integreat_cms/cms/models/pages/abstract_base_page.py] *)

Module abstract_base_page.

(** The one column the class adds to [AbstractContentModel]. *)
Record AbstractBasePage : Set := { explicitly_archived : bool }.

(** The [archived] property of the base class. *)
Definition archived (self : AbstractBasePage) : bool :=
  explicitly_archived self.

End abstract_base_page.

(** ** [backend/cms/models/site.py] *)

Module site.

Import Py.

Definition ACTIVE : string := "acti".
Definition HIDDEN : string := "hidd".
Definition ARCHIVED : string := "arch".

Definition STATUS : list (string * string) :=
  [ (ACTIVE, "Active"); (HIDDEN, "Hidden"); (ARCHIVED, "Archived") ].

(** The columns of [Site]; the two [FloatField]s, [latitude] and
    [longitude], play no part below and are left out. *)
Record Site : Set := {
  title : string;
  name : string;
  status : string;
  language_tree : Z;
  events_enabled : bool;
  push_notifications_enabled : bool;
  push_notification_channels : list string;
  postal_code : string;
  admin_mail : string;
  created_date : Z;
  last_updated : Z
}.

(** [max_length] of the [status] column. *)
Definition status_max_length : nat := 4.

(** [value == option_key] for some pair of [choices]. *)
Fixpoint is_choice (choices : list (string * string)) (value : string)
  : bool :=
  match choices with
  | [] => false
  | (option_key, _) :: rest =>
      if String.eqb value option_key then true else is_choice rest value
  end.

(** What Django's field validation does for
    [CharField(max_length=4, choices=STATUS)]: a non-empty value must be a
    choice, an empty one is refused as blank, and the length validator
    runs last. *)
Definition validate_status (value : string) : result unit :=
  match value with
  | String _ _ =>
      if is_choice STATUS value then
        if (status_max_length <? String.length value)%nat
        then Raise ValidationError
        else Ok ()
      else Raise ValidationError
  | EmptyString => Raise ValidationError
  end.

(** The database behind [Site.objects]: the rows by primary key, and the
    primary keys of the [LanguageTree] rows a site may point to. *)
Record Db : Type := {
  sites : gmap Z Site;
  language_trees : gset Z
}.

(** What the database can refuse a row with. *)
Inductive db_error : Set :=
| DataError
| IntegrityError.

(** The widths of the columns: the [max_length] of each field, and the
    default one of [EmailField]. *)
Definition fits_columns (self : Site) : bool :=
  (String.length (title self) <=? 200)%nat &&
  (String.length (name self) <=? 60)%nat &&
  (String.length (status self) <=? status_max_length)%nat &&
  forallb (λ c, (String.length c <=? 60)%nat)
    (push_notification_channels self) &&
  (String.length (postal_code self) <=? 10)%nat &&
  (String.length (admin_mail self) <=? 254)%nat.

(** Some row other than [pk] has the name [n] already. *)
Definition name_taken (db : Db) (pk : Z) (n : string) : bool :=
  bool_decide (map_Exists (λ k row, k ≠ pk ∧ name row = n) (sites db)).

(** [self.save()] for a new [Site] to which the database gives the key
    [pk]. [Site] declares no [save], no [clean] and no validator, so this is
    [Model.save] as Django has it: the row is written without being
    validated, and the checks are those of the database, the width of the
    columns, the primary key, the unique [name] and the foreign key. *)
Definition save (db : Db) (pk : Z) (self : Site) : db_error + Db :=
  if negb (fits_columns self) then inl DataError
  else if bool_decide (is_Some (sites db !! pk)) then inl IntegrityError
  else if name_taken db pk (name self) then inl IntegrityError
  else if bool_decide (language_tree self ∈ language_trees db)
  then inr {| sites := <[pk := self]> (sites db);
              language_trees := language_trees db |}
  else inl IntegrityError.

End site.

(** ** [integreat_cms/cms/migrations/0005_grant_imprint_deletion_permission.py] *)

Module migration_0005.

Import Py.

(** Rows of [auth_group] and [auth_permission]. *)
Record Group : Set := { group_id : Z; group_name : string }.
Record Permission : Set := { permission_id : Z; codename : string }.

(** The historical models the migration reads through [apps.get_model]:
    the two tables and the many-to-many relation [Group.permissions], a
    set of (group id, permission id) pairs. *)
Record Apps : Type := {
  groups : list Group;
  permissions : list Permission;
  group_permissions : gset (Z * Z)
}.

(** [Model.objects.get(...)]: the single row passing the test. *)
Definition get {A} (rows : list A) (test : A → bool) : result A :=
  match List.filter test rows with
  | [] => Raise DoesNotExist
  | [row] => Ok row
  | _ :: _ :: _ => Raise MultipleObjectsReturned
  end.

(** The tables with another many-to-many relation. *)
Definition with_group_permissions (apps : Apps) (s : gset (Z * Z)) : Apps :=
  {| groups := groups apps;
     permissions := permissions apps;
     group_permissions := s |}.

(** [add_roles]: [management_group.permissions.add(...)]. *)
Definition add_roles (apps : Apps) : result Apps :=
  management_group ←
    get (groups apps) (λ g, String.eqb (group_name g) "MANAGEMENT");
  delete_imprint_permission ←
    get (permissions apps) (λ p, String.eqb (codename p) "delete_imprintpage");
  Ok (with_group_permissions apps
        ({[ (group_id management_group,
             permission_id delete_imprint_permission) ]}
         ∪ group_permissions apps)).

(** [remove_roles]: [management_group.permissions.remove(...)]. *)
Definition remove_roles (apps : Apps) : result Apps :=
  management_group ←
    get (groups apps) (λ g, String.eqb (group_name g) "MANAGEMENT");
  delete_imprint_permission ←
    get (permissions apps) (λ p, String.eqb (codename p) "delete_imprintpage");
  Ok (with_group_permissions apps
        (group_permissions apps
         ∖ {[ (group_id management_group,
               permission_id delete_imprint_permission) ]})).

(** [group.permissions.all()] as a set of permission ids. *)
Definition permissions_of (apps : Apps) (g : Z) : gset Z :=
  set_map snd (filter (λ gp, gp.1 = g) (group_permissions apps)).

(** [Group.objects.get(name="MANAGEMENT")] *)
Definition management (apps : Apps) : result Group :=
  get (groups apps) (λ g, String.eqb (group_name g) "MANAGEMENT").

(** [Permission.objects.get(codename="delete_imprintpage")] *)
Definition delete_imprint (apps : Apps) : result Permission :=
  get (permissions apps) (λ p, String.eqb (codename p) "delete_imprintpage").

End migration_0005.

(** ** [integreat_cms/cms/migrations/0089_add_poicategory_icons.py] *)

Module migration_0089.

Import Py.

(** The [choices] the migration gives the [icon] column of [poicategory]. *)
Definition icon_choices : list (string * string) :=
  [ ("advice", "Advice");
    ("culture", "Culture");
    ("daily_routine", "Daily routine");
    ("education", "Education");
    ("finance", "Finance");
    ("gastronomy", "Gastronomy");
    ("health", "Health");
    ("house", "House");
    ("leisure", "Leisure");
    ("media", "Media");
    ("medical_aid", "Medical aid");
    ("meeting_point", "Meeting point");
    ("mental_health", "Mental Health");
    ("mobility", "Mobility");
    ("office", "Office");
    ("other", "Other");
    ("other_help", "Other help");
    ("service", "Service");
    ("shelter", "Shelter");
    ("shopping", "Shopping");
    ("structure", "Structure") ].

(** [max_length] of the column. *)
Definition icon_max_length : nat := 256.

(** What Django's field validation does for
    [CharField(blank=True, choices=..., max_length=256, null=True)]: [None]
    and the empty string pass, as [null] and [blank] allow them; any other
    value must be a choice and then meets the length validator. *)
Definition validate_icon (value : option string) : result unit :=
  match value with
  | None => Ok ()
  | Some EmptyString => Ok ()
  | Some v =>
      if site.is_choice icon_choices v then
        if (icon_max_length <? String.length v)%nat
        then Raise ValidationError
        else Ok ()
      else Raise ValidationError
  end.

End migration_0089.

(** ** The language tree and its form ([cms/forms/language_tree], not among
     the sources at hand; the tests in [cms/_tests.py] drive it) *)

Module language_tree.

(** Modelled from the spec: the [LanguageTreeNode] model is missing. A node
    belongs to exactly one region, optionally has a parent node and carries
    an active flag. *)
Record LanguageTreeNode : Set := {
  region : Z;
  language : Z;
  parent : option Z;
  active : bool
}.

(** Modelled from the spec: the data layer is missing. It stores nodes by
    primary key and does not itself enforce the shape of the tree. *)
Definition save (t : gmap Z LanguageTreeNode) (pk : Z)
    (n : LanguageTreeNode) : gmap Z LanguageTreeNode :=
  <[pk := n]> t.

(** Modelled from the spec: [LanguageTreeNodeForm] is missing. As the tests
    build it, a form holds the submitted node ([language], [parent],
    [active], and the region the slug names) and the primary key of the
    node it edits, [None] when it creates one. *)
Record LanguageTreeNodeForm : Set := {
  instance : option Z;
  data : LanguageTreeNode
}.





(** Following parent links from [k] stops within [fuel] steps, at a node
    without parent or at a key that is no node. *)
Fixpoint ends (fuel : nat) (t : gmap Z LanguageTreeNode) (k : Z) : bool :=
  match fuel with
  | O => false
  | S fuel' =>
      match t !! k with
      | None => true
      | Some n =>
          match parent n with
          | None => true
          | Some p => ends fuel' t p
          end
      end
  end.

(** The check for [acyclic]: from every node the parent links stop; one
    step more than there are nodes is enough to tell. *)
Definition check_acyclic (t : gmap Z LanguageTreeNode) : bool :=
  bool_decide (map_Forall (λ k _, ends (S (size t)) t k = true) t).

(** The check for [single_rooted]: the region of every node has a root
    that is its only root. *)
Definition check_single_rooted (t : gmap Z LanguageTreeNode) : bool :=
  bool_decide
    (map_Forall
       (λ _ n,
          map_Exists
            (λ k m,
               region m = region n ∧ parent m = None ∧
               map_Forall
                 (λ k' m', region m' = region n → parent m' = None → k' = k)
                 t)
            t)
       t).

(** Modelled from the spec: the missing form validation. The spec says what
    it enforces, that the tree is acyclic and single-rooted per region, and
    names no rule by which it does; so a submission that is to be stored
    under [pk] is valid exactly when the table it leads to is acyclic and
    single-rooted. *)
Definition is_valid (t : gmap Z LanguageTreeNode) (pk : Z)
    (form : LanguageTreeNodeForm) : bool :=
  check_acyclic (save t pk (data form)) &&
  check_single_rooted (save t pk (data form)).




End language_tree.

(** ** Sample data for the worked examples *)

Module samples.

Import Py media_file.

(** A file system on which every file can be read. *)
Definition readable (path : string) : result string := Ok "1700000000.25".

(** A file system on which no file can be read. *)
Definition unreadable (path : string) : result string := Raise OSError.

(** A world with the given clock, table and file system. *)
Definition world (t : struct_time) (rows : gmap Z MediaFile)
    (g : string → result string) : World :=
  {| BASE_URL := "http://localhost:8000";
     now := t;
     objects := rows;
     storage_url := λ n, "/media/" +:+ n;
     storage_path := λ n, "/var/www/cms/media/" +:+ n;
     getmtime := g;
     CHOICES := [ ("image/png", "PNG image"); ("application/pdf", "PDF document") ];
     localize_localtime := λ _, "March 5, 2024, 10:00 a.m." |}.

Definition march_2024 : struct_time := {| tm_year := 2024; tm_mon := 3 |}.
Definition june_2025 : struct_time := {| tm_year := 2025; tm_mon := 6 |}.

(** A media file with the given key, file name, thumbnail name, type and
    region. *)
Definition media (pk : option Z) (f t : option string) (ty : string)
    (r : option Z) : MediaFile :=
  {| id := pk;
     file := {| Django.name := f |};
     thumbnail := {| Django.name := t |};
     type := ty;
     name := "logo";
     parent_directory := None;
     region := (λ k, {| region.id := k |}) <$> r;
     alt_text := "The logo";
     uploaded_date := Some 1709632800 |}.

(** The auth tables before migration 0005: two groups, three permissions,
    and what the groups may do so far. *)
Definition auth_tables : migration_0005.Apps :=
  {| migration_0005.groups :=
       [ {| migration_0005.group_id := 1;
            migration_0005.group_name := "MANAGEMENT" |};
         {| migration_0005.group_id := 2;
            migration_0005.group_name := "EDITOR" |} ];
     migration_0005.permissions :=
       [ {| migration_0005.permission_id := 10;
            migration_0005.codename := "change_imprintpage" |};
         {| migration_0005.permission_id := 11;
            migration_0005.codename := "delete_imprintpage" |};
         {| migration_0005.permission_id := 12;
            migration_0005.codename := "view_imprintpage" |} ];
     migration_0005.group_permissions := {[ (1, 10); (1, 12); (2, 12) ]} |}.

(** The language tree the tests set up for the region [demo]: English at
    the root, German and Arabic below it. *)
Definition demo : Z := 1.

Definition english_node : language_tree.LanguageTreeNode :=
  {| language_tree.region := demo; language_tree.language := 1;
     language_tree.parent := None; language_tree.active := true |}.

Definition deutsch_node : language_tree.LanguageTreeNode :=
  {| language_tree.region := demo; language_tree.language := 2;
     language_tree.parent := Some 1; language_tree.active := true |}.

Definition arabic_node : language_tree.LanguageTreeNode :=
  {| language_tree.region := demo; language_tree.language := 3;
     language_tree.parent := Some 1; language_tree.active := true |}.

Definition create (n : language_tree.LanguageTreeNode)
  : language_tree.LanguageTreeNodeForm :=
  {| language_tree.instance := None; language_tree.data := n |}.

Definition english_only : gmap Z language_tree.LanguageTreeNode :=
  language_tree.save ∅ 1 english_node.

Definition demo_tree : gmap Z language_tree.LanguageTreeNode :=
  language_tree.save
    (language_tree.save english_only 2 deutsch_node) 3 arabic_node.

(** English moved below itself, and a second root written next to it. *)
Definition english_loop : language_tree.LanguageTreeNode :=
  {| language_tree.region := demo; language_tree.language := 1;
     language_tree.parent := Some 1; language_tree.active := true |}.

Definition second_root : language_tree.LanguageTreeNode :=
  {| language_tree.region := demo; language_tree.language := 2;
     language_tree.parent := None; language_tree.active := true |}.

(** A database with one language tree and no site yet, and a site whose
    status is none of the three. *)
Definition empty_sites : site.Db :=
  {| site.sites := ∅; site.language_trees := {[ 1 ]} |}.

Definition augsburg (st : string) : site.Site :=
  {| site.title := "Stadt Augsburg";
     site.name := "augsburg";
     site.status := st;
     site.language_tree := 1;
     site.events_enabled := true;
     site.push_notifications_enabled := true;
     site.push_notification_channels := [ "news"; "events" ];
     site.postal_code := "86150";
     site.admin_mail := "admin@integreat.com";
     site.created_date := 1554457424;
     site.last_updated := 1554457424 |}.

End samples.

(* ===================================================================== *)
(** * Part II: theorems                                                   *)
(* ===================================================================== *)

(** ** Strings *)

Section string_facts.

Import Py.

Lemma str_app_cons (x : ascii) (a b : string) :
  String x a +:+ b = String x (a +:+ b).
Proof. done. Qed.

Lemma str_app_nil_l (a : string) : "" +:+ a = a.
Proof. done. Qed.

Lemma str_app_assoc (a b c : string) : (a +:+ b) +:+ c = a +:+ (b +:+ c).
Proof.
  induction a as [|x a IH]; [done|]. by rewrite !str_app_cons, IH.
Qed.

Lemma str_length_app (a b : string) :
  String.length (a +:+ b) = (String.length a + String.length b)%nat.
Proof.
  induction a as [|x a IH]; [done|]. rewrite str_app_cons. cbn. by rewrite IH.
Qed.

Lemma str_take_app (a b : string) (n : nat) :
  take (String.length a + n) (a +:+ b) = a +:+ take n b.
Proof.
  induction a as [|x a IH]; [done|]. rewrite !str_app_cons. cbn. by rewrite IH.
Qed.

Lemma str_drop_app (a b : string) (n : nat) :
  drop (String.length a + n) (a +:+ b) = drop n b.
Proof.
  induction a as [|x a IH]; [done|]. rewrite !str_app_cons. cbn. by rewrite IH.
Qed.

Lemma str_get_app (a b : string) (n : nat) :
  String.get (String.length a + n) (a +:+ b) = String.get n b.
Proof.
  induction a as [|x a IH]; [done|]. rewrite !str_app_cons. cbn. by rewrite IH.
Qed.

(** [rfind] started at index [i] with an earlier hit [acc]. *)
Lemma rfind_from_rfind (c : ascii) (s : string) (i acc : Z) :
  rfind_from c s i acc =
  if rfind c s <? 0 then acc else i + rfind c s.
Proof.
  unfold rfind. revert i acc.
  induction s as [|x s IH]; intros i acc; cbn; [done|].
  rewrite (IH (i + 1)), (IH 1).
  destruct (rfind_from c s 0 (-1) <? 0) eqn:Hneg.
  - destruct (Ascii.eqb x c); cbn; [f_equal; lia | done].
  - apply Z.ltb_ge in Hneg.
    destruct (1 + rfind_from c s 0 (-1) <? 0) eqn:Hneg'; [lia | lia].
Qed.

Lemma rfind_bounds (c : ascii) (s : string) :
  -1 ≤ rfind c s < Z.of_nat (String.length s).
Proof.
  induction s as [|x s IH]; [cbn; lia|].
  unfold rfind in *. cbn [rfind_from String.length].
  rewrite rfind_from_rfind. unfold rfind.
  destruct (rfind_from c s 0 (-1) <? 0) eqn:Hneg.
  - destruct (Ascii.eqb x c); lia.
  - apply Z.ltb_ge in Hneg. lia.
Qed.

Lemma rfind_from_app (c : ascii) (a b : string) (i acc : Z) :
  rfind_from c (a +:+ b) i acc =
  rfind_from c b (i + Z.of_nat (String.length a)) (rfind_from c a i acc).
Proof.
  revert i acc. induction a as [|x a IH]; intros i acc.
  - rewrite str_app_nil_l. cbn. f_equal. lia.
  - rewrite str_app_cons. cbn [rfind_from String.length]. rewrite IH.
    f_equal. lia.
Qed.

Lemma rfind_app (c : ascii) (a b : string) :
  rfind c (a +:+ b) =
  if rfind c b <? 0 then rfind c a
  else Z.of_nat (String.length a) + rfind c b.
Proof.
  rewrite <- rfind_from_rfind. unfold rfind at 1.
  rewrite rfind_from_app. done.
Qed.

Lemma char_differs_app (a f : string) (i : Z) (c : ascii) :
  0 ≤ i →
  char_differs (a +:+ f) (Z.of_nat (String.length a) + i) c =
  char_differs f i c.
Proof.
  intros Hi. unfold char_differs.
  replace (Z.to_nat (Z.of_nat (String.length a) + i))
    with (String.length a + Z.to_nat i)%nat by lia.
  by rewrite str_get_app.
Qed.

(** The loop of [splitext] sees the same characters behind a prefix. *)
Lemma splitext_loop_app (a f : string) (n : nat) (i j : Z) :
  0 ≤ i → 0 ≤ j →
  splitext_loop n (a +:+ f)
    (Z.of_nat (String.length a) + i) (Z.of_nat (String.length a) + j) =
  (λ re : string * string, (a +:+ re.1, re.2)) <$> splitext_loop n f i j.
Proof.
  intros Hi Hj. revert i Hi.
  induction n as [|n IH]; intros i Hi; cbn [splitext_loop]; [done|].
  replace (Z.of_nat (String.length a) + i <? Z.of_nat (String.length a) + j)
    with (i <? j) by (destruct (Z.ltb_spec i j); symmetry;
                      [apply Z.ltb_lt | apply Z.ltb_ge]; lia).
  destruct (i <? j); [|done].
  rewrite char_differs_app by done.
  destruct (char_differs f i "."%char).
  - cbn. f_equal.
    replace (Z.to_nat (Z.of_nat (String.length a) + j))
      with (String.length a + Z.to_nat j)%nat by lia.
    by rewrite str_take_app, str_drop_app.
  - replace (Z.of_nat (String.length a) + i + 1)
      with (Z.of_nat (String.length a) + (i + 1)) by lia.
    apply IH. lia.
Qed.

(** [splitext] leaves a directory prefix alone: below a ["/"], the
    extension is the extension of the last component. *)
Lemma splitext_dir (d f : string) :
  splitext (d +:+ "/" +:+ f) =
  (d +:+ "/" +:+ (splitext f).1, (splitext f).2).
Proof.
  rewrite <- !str_app_assoc. set (a := d +:+ "/").
  assert (Hlen : Z.of_nat (String.length a) = Z.of_nat (String.length d) + 1).
  { unfold a. rewrite str_length_app. cbn. lia. }
  assert (Hsep : rfind "/"%char a = Z.of_nat (String.length a) - 1).
  { unfold a at 1. rewrite rfind_app. cbn. lia. }
  assert (Hdot : rfind "."%char a < Z.of_nat (String.length a) - 1).
  { unfold a at 1. rewrite rfind_app. cbn.
    pose proof (rfind_bounds "."%char d). lia. }
  pose proof (rfind_bounds "/"%char f) as Hs.
  pose proof (rfind_bounds "."%char f) as Ht.
  unfold splitext. rewrite !rfind_app.
  set (s := rfind "/"%char f) in *. set (t := rfind "."%char f) in *.
  set (L := Z.of_nat (String.length a)) in *.
  destruct (Z.ltb_spec t 0) as [Htneg|Htpos].
  { assert (t = -1) as -> by lia.
    destruct (s <? 0) eqn:Hsneg.
    - replace (rfind "/"%char a <? rfind "."%char a) with false
        by (symmetry; apply Z.ltb_ge; lia).
      replace (s <? -1) with false by (symmetry; apply Z.ltb_ge; lia).
      done.
    - replace (L + s <? rfind "."%char a) with false
        by (symmetry; apply Z.ltb_ge; apply Z.ltb_ge in Hsneg; lia).
      replace (s <? -1) with false by (symmetry; apply Z.ltb_ge; lia).
      done. }
  assert (Hcmp : ((if s <? 0 then rfind "/"%char a else L + s) <? L + t)
                 = (s <? t)).
  { destruct (Z.ltb_spec s 0); destruct (Z.ltb_spec s t);
      first [apply Z.ltb_lt | apply Z.ltb_ge]; lia. }
  rewrite Hcmp. destruct (s <? t) eqn:Hst; [|done].
  replace ((if s <? 0 then rfind "/"%char a else L + s) + 1)
    with (L + (s + 1)) by (destruct (Z.ltb_spec s 0); lia).
  replace (L + t - (L + (s + 1))) with (t - (s + 1)) by lia.
  unfold L. rewrite splitext_loop_app by lia.
  destruct (splitext_loop _ f (s + 1) t) as [[r e]|]; done.
Qed.

End string_facts.

(** ** [media_file.py]: upload paths *)

Section upload_path_facts.

Import Py media_file.

Lemma strftime_year_month (t : struct_time) :
  strftime "%Y/%m" t = strftime "%Y" t +:+ "/" +:+ strftime "%m" t.
Proof.
  cbn [strftime]. by rewrite !str_app_assoc.
Qed.

(** C1: a media file that is in the database with a file keeps the name of
    that file as its upload path, whatever file name is submitted. *)
Theorem upload_path_stable (w : World) (instance original : MediaFile)
    (pk : Z) :
  id instance = Some pk →
  truthy_int (id instance) = true →
  objects w !! pk = Some original →
  Django.truthy (file original) = true →
  ∃ stored, Django.name (file original) = Some stored ∧
            ∀ filename, upload_path w instance filename = Ok stored.
Proof.
  intros Hid Hset Hrow Hfile.
  unfold Django.truthy, truthy_str in Hfile.
  destruct (Django.name (file original)) as [[|a s]|] eqn:Hname; try done.
  exists (String a s). split; [done|]. intros filename.
  unfold upload_path. rewrite Hset. unfold objects_get.
  rewrite Hid, Hrow. cbn. by rewrite Hname.
Qed.

(** The path requested for a file that is not in the database yet. *)
Lemma upload_path_requested (w : World) (instance : MediaFile)
    (filename : string) :
  truthy_int (id instance) = false →
  upload_path w instance filename =
  Ok (match region instance with
      | Some r =>
          "sites/" +:+ str_int (region.id r) +:+ "/" +:+
          strftime "%Y" (now w) +:+ "/" +:+ strftime "%m" (now w) +:+
          "/" +:+ filename
      | None =>
          strftime "%Y" (now w) +:+ "/" +:+ strftime "%m" (now w) +:+
          "/" +:+ filename
      end).
Proof.
  intros Hid. unfold upload_path. rewrite Hid, strftime_year_month.
  destruct (region instance) as [r|]; f_equal.
  - by rewrite !str_app_assoc.
  - by rewrite str_app_nil_l, !str_app_assoc.
Qed.

(** C3: for a media file that is not in the database yet, the upload path
    is the year, the month and the file name, below [sites/<region id>/]
    when the file belongs to a region. *)
Theorem upload_path_unpersisted (w : World) (instance : MediaFile)
    (filename : string) :
  truthy_int (id instance) = false →
  (∀ r, region instance = Some r →
        upload_path w instance filename =
        Ok ("sites/" +:+ str_int (region.id r) +:+ "/" +:+
            strftime "%Y" (now w) +:+ "/" +:+ strftime "%m" (now w) +:+
            "/" +:+ filename))
  ∧
  (region instance = None →
   upload_path w instance filename =
   Ok (strftime "%Y" (now w) +:+ "/" +:+ strftime "%m" (now w) +:+
       "/" +:+ filename)).
Proof.
  intros Hid. split.
  - intros r Hr. rewrite upload_path_requested by done. by rewrite Hr.
  - intros Hr. rewrite upload_path_requested by done. by rewrite Hr.
Qed.

Lemma upload_path_stable_witness :
  let original :=
    samples.media (Some 5) (Some "sites/7/2023/11/logo.png") None
      "image/png" (Some 7) in
  let instance :=
    samples.media (Some 5) (Some "logo.png") None "image/png" (Some 7) in
  let w :=
    samples.world samples.march_2024 {[ 5 := original ]} samples.readable in
  ∃ stored, Django.name (file original) = Some stored ∧
            ∀ filename, upload_path w instance filename = Ok stored.
Proof.
  intros original instance w.
  apply (upload_path_stable w instance original 5); reflexivity.
Defined.

Lemma upload_path_unpersisted_witness :
  upload_path
    (samples.world samples.march_2024 ∅ samples.readable)
    (samples.media None None None "image/png" (Some 7)) "logo.png"
  = Ok "sites/7/2024/03/logo.png".
Proof.
  apply (proj1 (upload_path_unpersisted
                  (samples.world samples.march_2024 ∅ samples.readable)
                  (samples.media None None None "image/png" (Some 7))
                  "logo.png" eq_refl) {| region.id := 7 |} eq_refl).
Defined.

(** Without a region the path starts with the year. *)
Example upload_path_global :
  upload_path
    (samples.world samples.june_2025 ∅ samples.readable)
    (samples.media None None None "application/pdf" None) "form.pdf"
  = Ok "2025/06/form.pdf".
Proof. reflexivity. Qed.

(** A row whose stored file is empty gets a fresh path. *)
Example upload_path_empty_original :
  upload_path
    (samples.world samples.june_2025
       {[ 5 := samples.media (Some 5) (Some "") None "image/png" (Some 7) ]}
       samples.readable)
    (samples.media (Some 5) None None "image/png" (Some 7)) "logo.png"
  = Ok "sites/7/2025/06/logo.png".
Proof. reflexivity. Qed.

(** A key that is not in the table makes the lookup fail. *)
Example upload_path_missing_row :
  upload_path
    (samples.world samples.june_2025 ∅ samples.readable)
    (samples.media (Some 5) None None "image/png" (Some 7)) "logo.png"
  = Raise DoesNotExist.
Proof. reflexivity. Qed.

End upload_path_facts.

(** ** [media_file.py]: thumbnail upload paths *)

Section upload_path_thumbnail_facts.

Import Py media_file.

(** The path of a file that is not in the database yet, as
    [upload_path_requested] gives it, is a directory, a ["/"] and the
    submitted file name. *)
Lemma upload_path_directory (w : World) (instance : MediaFile)
    (filename : string) :
  truthy_int (id instance) = false →
  ∃ directory,
    upload_path w instance filename = Ok (directory +:+ "/" +:+ filename) ∧
    directory =
      match region instance with
      | Some r =>
          "sites/" +:+ str_int (region.id r) +:+ "/" +:+
          strftime "%Y" (now w) +:+ "/" +:+ strftime "%m" (now w)
      | None => strftime "%Y" (now w) +:+ "/" +:+ strftime "%m" (now w)
      end.
Proof.
  intros Hid. eexists. split; [|reflexivity].
  rewrite upload_path_requested by done.
  destruct (region instance); by rewrite !str_app_assoc.
Qed.

(** The thumbnail path of a file that is not in the database yet comes from
    the name of its file alone. *)
Lemma upload_path_thumbnail_unpersisted (w : World) (instance : MediaFile)
    (file_name filename : string) :
  truthy_int (id instance) = false →
  Django.name (file instance) = Some file_name →
  upload_path_thumbnail w instance filename =
  Ok ((splitext file_name).1 +:+ "_thumbnail" +:+ (splitext file_name).2).
Proof.
  intros Hid Hname. unfold upload_path_thumbnail. rewrite Hid, Hname.
  by destruct (splitext file_name).
Qed.

(** C2, as the code has it: for a media file that is not in the database
    yet, the thumbnail path is the name of its file with [_thumbnail] put
    before the extension, whatever file name is submitted; the region and
    the date come in only through that name, so when the file is stored
    under its upload path the thumbnail lies next to it, below
    [sites/<region id>/<year>/<month>/]. *)
Theorem upload_path_thumbnail_derived (w : World) (instance : MediaFile)
    (file_name : string) :
  truthy_int (id instance) = false →
  Django.name (file instance) = Some file_name →
  (∀ filename,
     upload_path_thumbnail w instance filename =
     Ok ((splitext file_name).1 +:+ "_thumbnail" +:+ (splitext file_name).2))
  ∧
  (∀ original,
     upload_path w instance original = Ok file_name →
     ∀ filename,
       upload_path_thumbnail w instance filename =
       Ok (match region instance with
           | Some r =>
               "sites/" +:+ str_int (region.id r) +:+ "/" +:+
               strftime "%Y" (now w) +:+ "/" +:+ strftime "%m" (now w) +:+
               "/" +:+ (splitext original).1 +:+ "_thumbnail" +:+
               (splitext original).2
           | None =>
               strftime "%Y" (now w) +:+ "/" +:+ strftime "%m" (now w) +:+
               "/" +:+ (splitext original).1 +:+ "_thumbnail" +:+
               (splitext original).2
           end)).
Proof.
  intros Hid Hname. split.
  - intros filename. by apply upload_path_thumbnail_unpersisted.
  - intros original Hpath filename.
    rewrite (upload_path_thumbnail_unpersisted w instance file_name) by done.
    destruct (upload_path_directory w instance original Hid)
      as (directory & Hpath' & Hdir).
    rewrite Hpath in Hpath'. injection Hpath' as ->.
    rewrite splitext_dir. cbn [fst snd]. f_equal.
    rewrite Hdir. destruct (region instance); by rewrite !str_app_assoc.
Qed.

Lemma upload_path_thumbnail_derived_witness :
  let w := samples.world samples.march_2024 ∅ samples.readable in
  let instance :=
    samples.media None (Some "sites/7/2024/03/logo.png") None "image/png"
      (Some 7) in
  upload_path w instance "logo.png" = Ok "sites/7/2024/03/logo.png" ∧
  upload_path_thumbnail w instance "ignored.png" =
  Ok "sites/7/2024/03/logo_thumbnail.png".
Proof.
  intros w instance. split; [reflexivity|].
  apply (proj2 (upload_path_thumbnail_derived w instance
                  "sites/7/2024/03/logo.png" eq_refl eq_refl)
           "logo.png" eq_refl "ignored.png").
Defined.

(** C2, as it is worded, fails: a file of region 7 saved in March 2024 whose
    file is named [logo.png] gets the thumbnail path [logo_thumbnail.png],
    which holds neither the region id nor the date, although the upload path
    of the file does; a global file saved in June 2025 gets the same
    thumbnail path. *)
Lemma upload_path_thumbnail_ignores_region_and_date :
  let in_region := samples.media None (Some "logo.png") None "image/png" (Some 7) in
  let global := samples.media None (Some "logo.png") None "image/png" None in
  let march := samples.world samples.march_2024 ∅ samples.readable in
  let june := samples.world samples.june_2025 ∅ samples.readable in
  upload_path march in_region "logo.png" = Ok "sites/7/2024/03/logo.png" ∧
  upload_path_thumbnail march in_region "thumbnail.png"
    = Ok "logo_thumbnail.png" ∧
  upload_path_thumbnail june global "thumbnail.png"
    = Ok "logo_thumbnail.png" ∧
  ∀ rest, upload_path_thumbnail march in_region "thumbnail.png"
          ≠ Ok ("sites/7/" +:+ rest).
Proof. repeat split. intros rest Heq. cbv in Heq. discriminate Heq. Qed.

(** The example of the docstring: the thumbnail of [A_EOHRFQ2.jpg]. *)
Example upload_path_thumbnail_docstring :
  upload_path_thumbnail
    (samples.world samples.march_2024 ∅ samples.readable)
    (samples.media None (Some "A_EOHRFQ2.jpg") None "image/jpeg" None)
    "A_thumbnail_IWxPiOq.jpg"
  = Ok "A_EOHRFQ2_thumbnail.jpg".
Proof. reflexivity. Qed.

(** A file without a name has no thumbnail path: [splitext(None)] raises. *)
Example upload_path_thumbnail_no_file :
  upload_path_thumbnail
    (samples.world samples.march_2024 ∅ samples.readable)
    (samples.media None None None "image/png" (Some 7)) "thumbnail.png"
  = Raise TypeError.
Proof. reflexivity. Qed.

(** X1: a media file that is in the database with a thumbnail keeps the name
    of that thumbnail as its thumbnail path, whatever file name is
    submitted and whatever its file is named now. *)
Lemma upload_path_thumbnail_stable (w : World) (instance original : MediaFile)
    (pk : Z) :
  id instance = Some pk →
  truthy_int (id instance) = true →
  objects w !! pk = Some original →
  Django.truthy (thumbnail original) = true →
  ∃ stored, Django.name (thumbnail original) = Some stored ∧
            ∀ filename, upload_path_thumbnail w instance filename = Ok stored.
Proof.
  intros Hid Hset Hrow Hthumb.
  unfold Django.truthy, truthy_str in Hthumb.
  destruct (Django.name (thumbnail original)) as [[|a s]|] eqn:Hname;
    try done.
  exists (String a s). split; [done|]. intros filename.
  unfold upload_path_thumbnail. rewrite Hset. unfold objects_get.
  rewrite Hid, Hrow. cbn. by rewrite Hname.
Qed.

End upload_path_thumbnail_facts.

(** ** [media_file.py]: URLs and serialization *)

Section serialize_facts.

Import Py media_file.

(** The [url] property never raises. *)
Lemma url_total (w : World) (self : MediaFile) :
  url w self =
  Ok (if Django.truthy (file self)
      then (λ n, BASE_URL w +:+ storage_url w n) <$> Django.name (file self)
      else None).
Proof.
  unfold url, Django.truthy, Django.with_file, truthy_str.
  by destruct (Django.name (file self)) as [[|a s]|].
Qed.

(** Nor does the [thumbnail_url] property. *)
Lemma thumbnail_url_total (w : World) (self : MediaFile) :
  ∃ u, thumbnail_url w self = Ok u.
Proof.
  unfold thumbnail_url. destruct (Django.truthy (thumbnail self)) eqn:Ht; cbn.
  - unfold Django.truthy, truthy_str in Ht. unfold Django.with_file.
    destruct (Django.name (thumbnail self)) as [[|a s]|]; try done.
    by eexists.
  - destruct (startswith _ _); [|by eexists].
    rewrite url_total. by eexists.
Qed.

(** C8: without a thumbnail, [thumbnail_url] is the [url] of the file for an
    image and [None] for anything else, and neither case raises; with a
    thumbnail it is [BASE_URL] followed by the URL of the thumbnail. *)
Theorem thumbnail_url_cases (w : World) (self : MediaFile) :
  (Django.truthy (thumbnail self) = false →
   startswith (type self) "image" = true →
   thumbnail_url w self = url w self ∧ ∃ u, url w self = Ok u)
  ∧
  (Django.truthy (thumbnail self) = false →
   startswith (type self) "image" = false →
   thumbnail_url w self = Ok None)
  ∧
  (Django.truthy (thumbnail self) = true →
   ∃ n, Django.name (thumbnail self) = Some n ∧
        thumbnail_url w self = Ok (Some (BASE_URL w +:+ storage_url w n))).
Proof.
  unfold thumbnail_url. split; [|split].
  - intros -> ->. split; [done|]. rewrite url_total. by eexists.
  - intros -> ->. done.
  - intros Ht. rewrite Ht. cbn.
    unfold Django.truthy, truthy_str in Ht. unfold Django.with_file.
    destruct (Django.name (thumbnail self)) as [[|a s]|]; try done.
    by eexists.
Qed.

Lemma thumbnail_url_cases_witness :
  let w := samples.world samples.march_2024 ∅ samples.readable in
  let image :=
    samples.media (Some 5) (Some "2024/03/logo.png") None "image/png" None in
  let document :=
    samples.media (Some 6) (Some "2024/03/form.pdf") None "application/pdf"
      None in
  let with_thumbnail :=
    samples.media (Some 7) (Some "2024/03/logo.png")
      (Some "2024/03/logo_thumbnail.png") "image/png" None in
  (thumbnail_url w image = url w image ∧ ∃ u, url w image = Ok u) ∧
  thumbnail_url w document = Ok None ∧
  ∃ n, Django.name (thumbnail with_thumbnail) = Some n ∧
       thumbnail_url w with_thumbnail
       = Ok (Some (BASE_URL w +:+ storage_url w n)).
Proof.
  intros w image document with_thumbnail. split; [|split].
  - apply (proj1 (thumbnail_url_cases w image)); reflexivity.
  - apply (proj1 (proj2 (thumbnail_url_cases w document))); reflexivity.
  - apply (proj2 (proj2 (thumbnail_url_cases w with_thumbnail))); reflexivity.
Defined.

Example thumbnail_url_image :
  thumbnail_url
    (samples.world samples.march_2024 ∅ samples.readable)
    (samples.media (Some 5) (Some "2024/03/logo.png") None "image/png" None)
  = Ok (Some "http://localhost:8000/media/2024/03/logo.png").
Proof. reflexivity. Qed.

(** An image without file and without thumbnail has no thumbnail URL. *)
Example thumbnail_url_image_without_file :
  thumbnail_url
    (samples.world samples.march_2024 ∅ samples.readable)
    (samples.media (Some 5) None None "image/png" None)
  = Ok None.
Proof. reflexivity. Qed.

(** Reading a key of the dictionary. *)
Ltac lookup_serialized :=
  unfold serialized;
  repeat (rewrite lookup_insert_ne by done);
  first [ apply lookup_insert_eq | apply lookup_empty ].

Lemma serialized_isGlobal (w : World) (self : MediaFile)
    (tu su : option string) :
  serialized w self tu su !! "isGlobal" =
  Some (VBool (negb (truthy_obj (region self)))).
Proof. lookup_serialized. Qed.

Lemma serialized_thumbnailUrl (w : World) (self : MediaFile)
    (tu su : option string) :
  serialized w self tu su !! "thumbnailUrl" = Some (of_str tu).
Proof. lookup_serialized. Qed.

Lemma serialized_dom (w : World) (self : MediaFile) (tu su : option string) :
  dom (serialized w self tu su) = keys.
Proof.
  unfold serialized, keys. rewrite !dom_insert_L, dom_empty_L. set_solver.
Qed.

(** Only the [thumbnailUrl] entry depends on the thumbnail URL and on the
    file system. *)
Lemma serialized_other_keys (w : World) (self : MediaFile)
    (tu tu' su : option string) (g : string → result string) (k : string) :
  k ≠ "thumbnailUrl" →
  serialized (with_getmtime w g) self tu' su !! k =
  serialized w self tu su !! k.
Proof.
  intros Hk. unfold serialized.
  rewrite !lookup_insert. repeat case_decide; subst; done.
Qed.

(** What [serialize] returns, when it returns. *)
Lemma serialize_inv (w : World) (self : MediaFile) (d : gmap string value) :
  serialize w self = Ok d →
  ∃ tu su, url w self = Ok su ∧ d = serialized w self tu su.
Proof.
  unfold serialize. intros Hd.
  destruct (thumbnail_url w self) as [tu0|]; [|done]. cbn in Hd.
  rewrite url_total in *.
  match type of Hd with
  | mbind _ ?c = _ => destruct c as [tu1|]; [|done]
  end.
  cbn in Hd. injection Hd as <-. by eexists _, _.
Qed.

(** [serialize] on a media file whose thumbnail URL and file path are at
    hand. *)
Lemma serialize_step (w : World) (self : MediaFile) (tu : option string) :
  thumbnail_url w self = Ok tu →
  serialize w self =
  tu1 ← (if truthy_str tu then
           path ← Django.with_file (file self) (storage_path w);
           match getmtime w path with
           | Ok mtime => Ok ((λ u, u +:+ "?" +:+ mtime) <$> tu)
           | Raise OSError => Ok tu
           | Raise e => Raise e
           end
         else Ok tu);
  su ← url w self;
  Ok (serialized w self tu1 su).
Proof. intros Htu. unfold serialize. by rewrite Htu. Qed.

(** C5: the [isGlobal] entry of a serialized media file is true exactly
    when the file has no region; and [serialize] does return for a media
    file that has a file whenever it has a thumbnail, on a file system that
    fails with [OSError] only. *)
Theorem serialize_isGlobal (w : World) (self : MediaFile) :
  (∀ d, serialize w self = Ok d →
        ∃ b, d !! "isGlobal" = Some (VBool b) ∧
             (b = true ↔ region self = None))
  ∧
  ((Django.truthy (thumbnail self) = true →
    Django.truthy (file self) = true) →
   (∀ path e, getmtime w path = Raise e → e = OSError) →
   ∃ d, serialize w self = Ok d).
Proof.
  split.
  - intros d Hd. apply serialize_inv in Hd as (tu & su & _ & ->).
    eexists. split; [apply serialized_isGlobal|].
    by destruct (region self).
  - intros Hfile Hfs.
    destruct (thumbnail_url_total w self) as [tu Htu].
    rewrite (serialize_step w self tu Htu), url_total.
    destruct (truthy_str tu) eqn:Htruthy; [|by eexists].
    assert (Django.truthy (file self) = true) as Hf.
    { destruct (Django.truthy (thumbnail self)) eqn:Ht; [by apply Hfile|].
      revert Htu. unfold thumbnail_url. rewrite Ht. cbn.
      destruct (startswith _ _); [|intros [= <-]; done].
      rewrite url_total. destruct (Django.truthy (file self)); [done|].
      intros [= <-]; done. }
    unfold Django.truthy, truthy_str in Hf. unfold Django.with_file.
    destruct (Django.name (file self)) as [[|a s]|]; try done. cbn.
    destruct (getmtime w _) as [mtime|e] eqn:Hg; [by eexists|].
    apply Hfs in Hg as ->. by eexists.
Qed.

Lemma serialize_isGlobal_witness :
  let w := samples.world samples.march_2024 ∅ samples.unreadable in
  let global :=
    samples.media (Some 5) (Some "2024/03/logo.png") None "image/png" None in
  ∃ d, serialize w global = Ok d ∧
       ∃ b, d !! "isGlobal" = Some (VBool b) ∧
            (b = true ↔ region global = None).
Proof.
  intros w global.
  destruct (proj2 (serialize_isGlobal w global)) as [d Hd].
  - reflexivity.
  - intros path e. unfold w. cbn. intros [= <-]. reflexivity.
  - exists d. split; [exact Hd|].
    exact (proj1 (serialize_isGlobal w global) d Hd).
Defined.

Example serialize_global :
  (λ d, d !! "isGlobal") <$>
    serialize
      (samples.world samples.march_2024 ∅ samples.readable)
      (samples.media (Some 5) (Some "2024/03/logo.png") None "image/png" None)
  = Ok (Some (VBool true)).
Proof. vm_compute. reflexivity. Qed.

Example serialize_regional :
  (λ d, d !! "isGlobal") <$>
    serialize
      (samples.world samples.march_2024 ∅ samples.readable)
      (samples.media (Some 5) (Some "sites/7/2024/03/logo.png") None
         "image/png" (Some 7))
  = Ok (Some (VBool false)).
Proof. vm_compute. reflexivity. Qed.

(** A thumbnail without a file: the file has no path to look at. *)
Example serialize_thumbnail_without_file :
  serialize
    (samples.world samples.march_2024 ∅ samples.readable)
    (samples.media (Some 5) None (Some "2024/03/logo_thumbnail.png")
       "image/png" None)
  = Raise ValueError.
Proof. reflexivity. Qed.

(** C10: [serialize] never raises [OSError]; when the modification time of
    the file cannot be read, it returns the whole dictionary, with the plain
    thumbnail URL under [thumbnailUrl], and every other entry is what any
    other file system gives. *)
Theorem serialize_survives_OSError (w : World) (self : MediaFile) :
  serialize w self ≠ Raise OSError
  ∧
  (∀ path,
     Django.with_file (file self) (storage_path w) = Ok path →
     getmtime w path = Raise OSError →
     ∃ d tu,
       thumbnail_url w self = Ok tu ∧
       serialize w self = Ok d ∧
       d !! "thumbnailUrl" = Some (of_str tu) ∧
       dom d = keys ∧
       ∀ g d', serialize (with_getmtime w g) self = Ok d' →
               ∀ k, k ≠ "thumbnailUrl" → d' !! k = d !! k).
Proof.
  destruct (thumbnail_url_total w self) as [tu Htu].
  rewrite (serialize_step w self tu Htu), url_total. split.
  - destruct (truthy_str tu); [|done].
    destruct (Django.with_file _ _) as [path|e] eqn:Hp; cbn.
    + destruct (getmtime w path) as [mtime|[]]; done.
    + unfold Django.with_file in Hp.
      destruct (Django.name (file self)) as [[|a s]|]; by simplify_eq.
  - intros path -> Hg. cbn. rewrite Hg.
    exists (serialized w self tu
              (if Django.truthy (file self)
               then (λ n, BASE_URL w +:+ storage_url w n)
                      <$> Django.name (file self)
               else None)), tu.
    split; [done|]. split; [by destruct (truthy_str tu)|].
    split; [apply serialized_thumbnailUrl|].
    split; [apply serialized_dom|].
    intros g d' Hd' k Hk.
    apply serialize_inv in Hd' as (tu' & su' & Hsu' & ->).
    rewrite url_total in Hsu'. injection Hsu' as <-.
    by apply serialized_other_keys.
Qed.

Lemma serialize_survives_OSError_witness :
  let w := samples.world samples.march_2024 ∅ samples.unreadable in
  let self :=
    samples.media (Some 5) (Some "2024/03/logo.png") None "image/png" None in
  ∃ d tu,
    thumbnail_url w self = Ok tu ∧
    serialize w self = Ok d ∧
    d !! "thumbnailUrl" = Some (of_str tu) ∧
    dom d = keys ∧
    ∀ g d', serialize (with_getmtime w g) self = Ok d' →
            ∀ k, k ≠ "thumbnailUrl" → d' !! k = d !! k.
Proof.
  intros w self.
  apply (proj2 (serialize_survives_OSError w self)
           "/var/www/cms/media/2024/03/logo.png"); reflexivity.
Defined.

(** The two outcomes side by side: with and without the modification time. *)
Example serialize_thumbnailUrl_readable :
  (λ d, d !! "thumbnailUrl") <$>
    serialize
      (samples.world samples.march_2024 ∅ samples.readable)
      (samples.media (Some 5) (Some "2024/03/logo.png") None "image/png" None)
  = Ok (Some (VStr
      "http://localhost:8000/media/2024/03/logo.png?1700000000.25")).
Proof. vm_compute. reflexivity. Qed.

Example serialize_thumbnailUrl_unreadable :
  (λ d, d !! "thumbnailUrl") <$>
    serialize
      (samples.world samples.march_2024 ∅ samples.unreadable)
      (samples.media (Some 5) (Some "2024/03/logo.png") None "image/png" None)
  = Ok (Some (VStr "http://localhost:8000/media/2024/03/logo.png")).
Proof. vm_compute. reflexivity. Qed.

End serialize_facts.

(** ** [abstract_base_page.py] *)

Section abstract_base_page_facts.

Import abstract_base_page.

(** C4: on the base class, [archived] is the [explicitly_archived] flag: a
    page is archived exactly when it is explicitly archived. *)
Theorem archived_explicitly_archived (self : AbstractBasePage) :
  archived self = explicitly_archived self ∧
  (archived self = true ↔ explicitly_archived self = true).
Proof. unfold archived. by split. Qed.

Example archived_flag_set :
  archived {| explicitly_archived := true |} = true.
Proof. reflexivity. Qed.

Example archived_flag_clear :
  archived {| explicitly_archived := false |} = false.
Proof. reflexivity. Qed.

End abstract_base_page_facts.

(** ** [site.py] *)

Section site_facts.

Import Py site.

Lemma is_choice_STATUS (value : string) :
  is_choice STATUS value = true ↔
  value = ACTIVE ∨ value = HIDDEN ∨ value = ARCHIVED.
Proof.
  unfold STATUS. cbn [is_choice].
  destruct (String.eqb_spec value ACTIVE) as [->|Ha]; [naive_solver|].
  destruct (String.eqb_spec value HIDDEN) as [->|Hh]; [naive_solver|].
  destruct (String.eqb_spec value ARCHIVED) as [->|Hr]; [naive_solver|].
  naive_solver.
Qed.

(** Validation accepts the choices and nothing else. *)
Lemma validate_status_choice (value : string) :
  validate_status value = Ok () ↔
  value = ACTIVE ∨ value = HIDDEN ∨ value = ARCHIVED.
Proof.
  rewrite <- is_choice_STATUS. unfold validate_status.
  destruct value as [|a s]; [done|].
  destruct (is_choice STATUS (String a s)) eqn:Hc; [|done].
  apply is_choice_STATUS in Hc as [->| [->| ->]]; done.
Qed.

(** A row that fits the columns, under a free key, with a free name and an
    existing language tree, is written as it is. *)
Lemma save_writes (db : Db) (pk : Z) (self : Site) :
  fits_columns self = true →
  sites db !! pk = None →
  name_taken db pk (name self) = false →
  language_tree self ∈ language_trees db →
  save db pk self =
  inr {| sites := <[pk := self]> (sites db);
         language_trees := language_trees db |}.
Proof.
  intros Hfits Hfree Hname Htree. unfold save.
  rewrite Hfits, Hname. cbn.
  rewrite bool_decide_eq_false_2 by (rewrite Hfree; by intros [? ?]).
  by rewrite bool_decide_eq_true_2.
Qed.

(** C6, as it is worded, fails: [save] stores a site whose status is
    [gone], which is none of the three values and which validation
    refuses. *)
Lemma save_persists_other_status :
  ∃ db,
    save samples.empty_sites 1 (samples.augsburg "gone") = inr db ∧
    sites db !! 1 = Some (samples.augsburg "gone") ∧
    status (samples.augsburg "gone") ≠ ACTIVE ∧
    status (samples.augsburg "gone") ≠ HIDDEN ∧
    status (samples.augsburg "gone") ≠ ARCHIVED ∧
    validate_status (status (samples.augsburg "gone"))
    = Raise ValidationError.
Proof. eexists. repeat split; done. Qed.

(** C6, as the code has it: the status column has exactly the three choices
    [ACTIVE], [HIDDEN] and [ARCHIVED], which differ from one another, and
    field validation accepts the status of a site if and only if it is one
    of them; [save] does not validate: it stores a site whatever its
    status is, as long as the row fits the columns, its key and name are
    free and its language tree exists. *)
Theorem status_choices_not_enforced_on_save :
  STATUS.*1 = [ACTIVE; HIDDEN; ARCHIVED] ∧
  NoDup [ACTIVE; HIDDEN; ARCHIVED] ∧
  (∀ self : Site,
     validate_status (status self) = Ok () ↔
     status self = ACTIVE ∨ status self = HIDDEN ∨ status self = ARCHIVED) ∧
  (∀ (db : Db) (pk : Z) (self : Site),
     fits_columns self = true →
     sites db !! pk = None →
     name_taken db pk (name self) = false →
     language_tree self ∈ language_trees db →
     ∃ db', save db pk self = inr db' ∧
            sites db' !! pk = Some self ∧
            ∀ k, k ≠ pk → sites db' !! k = sites db !! k).
Proof.
  split; [done|]. split.
  { repeat (apply NoDup_cons; split; [set_solver|]). apply NoDup_nil_2. }
  split; [intros self; apply validate_status_choice|].
  intros db pk self Hfits Hfree Hname Htree.
  eexists. split; [by apply save_writes|]. cbn. split.
  - apply lookup_insert_eq.
  - intros k Hk. by apply lookup_insert_ne.
Qed.

Lemma status_choices_not_enforced_on_save_witness :
  ∃ db', save samples.empty_sites 1 (samples.augsburg "gone") = inr db' ∧
         sites db' !! 1 = Some (samples.augsburg "gone") ∧
         ∀ k, k ≠ 1 → sites db' !! k = sites samples.empty_sites !! k.
Proof.
  apply (proj2 (proj2 (proj2 status_choices_not_enforced_on_save))
           samples.empty_sites 1 (samples.augsburg "gone"));
    [reflexivity | reflexivity | reflexivity | vm_compute; reflexivity].
Defined.

(** What the database does refuse: a status wider than the column, and a
    name that is taken. *)
Example save_refuses_wide_status :
  save samples.empty_sites 1 (samples.augsburg "active") = inl DataError.
Proof. reflexivity. Qed.

Example save_refuses_taken_name :
  save {| sites := {[ 1 := samples.augsburg ACTIVE ]};
          language_trees := {[ 1 ]} |}
    2 (samples.augsburg HIDDEN)
  = inl IntegrityError.
Proof. reflexivity. Qed.

Example status_active_accepted : validate_status ACTIVE = Ok ().
Proof. reflexivity. Qed.

Example status_label_refused : validate_status "Active" = Raise ValidationError.
Proof. reflexivity. Qed.

Example status_blank_refused : validate_status "" = Raise ValidationError.
Proof. reflexivity. Qed.

End site_facts.

(** ** Migration 0005 *)

Section migration_0005_facts.

Import Py migration_0005.

(** C9: when the [MANAGEMENT] group and the [delete_imprintpage] permission
    are there and the group does not hold the permission, [add_roles]
    succeeds, [remove_roles] succeeds after it, and the two together give
    back the tables they started from; so the permissions of the group are
    what they were. *)
Theorem remove_roles_add_roles (apps : Apps) (g : Group) (p : Permission) :
  get (groups apps) (λ g, String.eqb (group_name g) "MANAGEMENT") = Ok g →
  get (permissions apps)
    (λ p, String.eqb (codename p) "delete_imprintpage") = Ok p →
  (group_id g, permission_id p) ∉ group_permissions apps →
  ∃ added,
    add_roles apps = Ok added ∧
    permissions_of added (group_id g) =
      {[ permission_id p ]} ∪ permissions_of apps (group_id g) ∧
    remove_roles added = Ok apps ∧
    ∀ removed, remove_roles added = Ok removed →
               permissions_of removed (group_id g) =
               permissions_of apps (group_id g).
Proof.
  intros Hg Hp Hnew. unfold add_roles. rewrite Hg, Hp. cbn.
  eexists. split; [done|]. split.
  { unfold permissions_of, with_group_permissions. cbn.
    apply set_eq. intros x. rewrite elem_of_union, elem_of_singleton.
    rewrite !elem_of_map. split.
    - intros ([a b] & -> & Hin). apply elem_of_filter in Hin as [Ha Hin].
      cbn in *. apply elem_of_union in Hin as [Hin|Hin].
      + apply elem_of_singleton in Hin as [= -> ->]. by left.
      + right. exists (a, b). split; [done|]. by apply elem_of_filter.
    - intros [->|([a b] & -> & Hin)].
      + exists (group_id g, permission_id p). split; [done|].
        apply elem_of_filter. split; [done|]. set_solver.
      + apply elem_of_filter in Hin as [Ha Hin].
        exists (a, b). split; [done|]. apply elem_of_filter. set_solver. }
  assert (remove_roles
            (with_group_permissions apps
               ({[ (group_id g, permission_id p) ]} ∪ group_permissions apps))
          = Ok apps) as Hremove.
  { unfold remove_roles, with_group_permissions. cbn. rewrite Hg, Hp. cbn.
    destruct apps as [gs ps gp]. cbn in *. do 2 f_equal. set_solver. }
  split; [done|]. intros removed. rewrite Hremove. by intros [= <-].
Qed.

Lemma remove_roles_add_roles_witness :
  let g := {| group_id := 1; group_name := "MANAGEMENT" |} in
  let p := {| permission_id := 11; codename := "delete_imprintpage" |} in
  ∃ added,
    add_roles samples.auth_tables = Ok added ∧
    permissions_of added (group_id g) =
      {[ permission_id p ]} ∪ permissions_of samples.auth_tables (group_id g) ∧
    remove_roles added = Ok samples.auth_tables ∧
    ∀ removed, remove_roles added = Ok removed →
               permissions_of removed (group_id g) =
               permissions_of samples.auth_tables (group_id g).
Proof.
  intros g p.
  apply (remove_roles_add_roles samples.auth_tables g p);
    [reflexivity | reflexivity | vm_compute; intros H; discriminate H].
Defined.

(** A group that holds the permission already loses it on the way back. *)
Example remove_roles_add_roles_held :
  let held :=
    with_group_permissions samples.auth_tables {[ (1, 10); (1, 11) ]} in
  (λ a, permissions_of a 1) <$> (add_roles held ≫= remove_roles)
  = Ok {[ 10 ]} ∧
  permissions_of held 1 = {[ 10; 11 ]}.
Proof. split; vm_compute; reflexivity. Qed.

(** Without the group the migration fails. *)
Example add_roles_without_group :
  add_roles {| groups := []; permissions := []; group_permissions := ∅ |}
  = Raise DoesNotExist.
Proof. reflexivity. Qed.

End migration_0005_facts.

(** ** The language tree *)

Section language_tree_facts.

Import language_tree.

Implicit Types (t : gmap Z LanguageTreeNode) (n : LanguageTreeNode).
Implicit Types (k p pk r : Z) (l : list Z).




















(** What the tests check on that tree: the German node is in the region of
    the English one and has it as parent. *)
Example demo_tree_parent_node :
  samples.demo_tree !! 2 = Some samples.deutsch_node ∧
  parent samples.deutsch_node = Some 1 ∧
  samples.demo_tree !! 1 = Some samples.english_node ∧
  region samples.deutsch_node = region samples.english_node.
Proof. repeat split. Qed.




(** The form refuses both. *)
Example is_valid_refuses_cycle :
  is_valid samples.english_only 1
    {| instance := Some 1; data := samples.english_loop |} = false.
Proof. reflexivity. Qed.

Example is_valid_refuses_second_root :
  is_valid samples.english_only 2 (samples.create samples.second_root)
  = false.
Proof. reflexivity. Qed.

(** Edits the form accepts: Arabic moves below German, English is switched
    off. *)
Example is_valid_accepts_move :
  is_valid samples.demo_tree 3
    {| instance := Some 3;
       data := {| region := samples.demo; language := 3; parent := Some 2;
                  active := true |} |} = true.
Proof. reflexivity. Qed.

Example is_valid_accepts_deactivation :
  is_valid samples.demo_tree 1
    {| instance := Some 1;
       data := {| region := samples.demo; language := 1; parent := None;
                  active := false |} |} = true.
Proof. reflexivity. Qed.

(** Edits it refuses: English moves below German, which is below English;
    German becomes a second root; Arabic moves to a region of which it is
    not the root; the root gets a parent that is no node. *)
Example is_valid_refuses_move_below_itself :
  is_valid samples.demo_tree 1
    {| instance := Some 1;
       data := {| region := samples.demo; language := 1; parent := Some 2;
                  active := true |} |} = false.
Proof. reflexivity. Qed.

Example is_valid_refuses_edit_to_root :
  is_valid samples.demo_tree 2
    {| instance := Some 2;
       data := {| region := samples.demo; language := 2; parent := None;
                  active := true |} |} = false.
Proof. reflexivity. Qed.

Example is_valid_refuses_rootless_region :
  is_valid samples.demo_tree 3
    {| instance := Some 3;
       data := {| region := 2; language := 3; parent := Some 1;
                  active := true |} |} = false.
Proof. reflexivity. Qed.

Example is_valid_refuses_losing_the_root :
  is_valid samples.demo_tree 1
    {| instance := Some 1;
       data := {| region := samples.demo; language := 1; parent := Some 9;
                  active := true |} |} = false.
Proof. reflexivity. Qed.



End language_tree_facts.

(** ** More on [splitext], as [upload_path_thumbnail] uses it *)

Section splitext_facts.

Import Py.

Lemma str_app_nil_r (a : string) : a +:+ "" = a.
Proof.
  induction a as [|x a IH]; [done|]. by rewrite str_app_cons, IH.
Qed.

Lemma str_take_drop (s : string) (n : nat) : take n s +:+ drop n s = s.
Proof.
  revert n. induction s as [|x s IH]; intros [|n]; cbn [take drop]; try done.
  by rewrite str_app_cons, IH.
Qed.

Lemma str_take_app_all (a b : string) : take (String.length a) (a +:+ b) = a.
Proof.
  induction a as [|x a IH]; [by destruct b|].
  rewrite str_app_cons. cbn. by rewrite IH.
Qed.

Lemma str_drop_app_all (a b : string) : drop (String.length a) (a +:+ b) = b.
Proof.
  induction a as [|x a IH]; [done|]. rewrite str_app_cons. cbn. by rewrite IH.
Qed.

Lemma str_get_app_l (a b : string) (n : nat) :
  (n < String.length a)%nat → String.get n (a +:+ b) = String.get n a.
Proof.
  revert n. induction a as [|x a IH]; intros n Hn; cbn in Hn; [lia|].
  rewrite str_app_cons. destruct n as [|n]; cbn; [done|]. apply IH. lia.
Qed.

Lemma rfind_cons (c a : ascii) (s : string) :
  rfind c (String a s) =
  if rfind c s <? 0 then (if Ascii.eqb a c then 0 else -1)
  else 1 + rfind c s.
Proof. unfold rfind at 1. cbn [rfind_from]. by rewrite rfind_from_rfind. Qed.

(** A string without [c] is one on which [rfind] answers [-1]. *)
Lemma rfind_cons_neg (c a : ascii) (s : string) :
  rfind c (String a s) < 0 ↔ a ≠ c ∧ rfind c s < 0.
Proof.
  rewrite rfind_cons. pose proof (rfind_bounds c s).
  destruct (Z.ltb_spec (rfind c s) 0); [|lia].
  destruct (Ascii.eqb_spec a c); split; try lia; naive_solver.
Qed.

(** [rfind] points at a [c]. *)
Lemma rfind_get (c : ascii) (s : string) :
  0 ≤ rfind c s → String.get (Z.to_nat (rfind c s)) s = Some c.
Proof.
  induction s as [|a s IH]; [cbn; lia|].
  rewrite rfind_cons. pose proof (rfind_bounds c s).
  destruct (Z.ltb_spec (rfind c s) 0).
  - destruct (Ascii.eqb_spec a c) as [->|]; [done | lia].
  - intros _. replace (Z.to_nat (1 + rfind c s))
      with (S (Z.to_nat (rfind c s))) by lia.
    cbn. by apply IH.
Qed.

(** Behind the place [rfind] points at there is no [c]. *)
Lemma rfind_drop (c : ascii) (s : string) (k : nat) :
  rfind c s < Z.of_nat k → rfind c (drop k s) < 0.
Proof.
  revert k. induction s as [|a s IH]; intros [|k] Hk; cbn [drop]; try done.
  apply IH. rewrite rfind_cons in Hk.
  destruct (Z.ltb_spec (rfind c s) 0); lia.
Qed.

Lemma drop_get (c : ascii) (s : string) (n : nat) :
  String.get n s = Some c → drop n s = String c (drop (S n) s).
Proof.
  revert n. induction s as [|a s IH]; intros [|n]; cbn; try done.
  - by intros [= ->].
  - intros Hn. by rewrite (IH n Hn).
Qed.

Lemma char_differs_app_l (p x : string) (i : Z) (c : ascii) :
  0 ≤ i < Z.of_nat (String.length p) →
  char_differs (p +:+ x) i c = char_differs p i c.
Proof.
  intros Hi. unfold char_differs. by rewrite str_get_app_l by lia.
Qed.

(** When the loop of [splitext] stops early, it splits at the last dot. *)
Lemma splitext_loop_Some (n : nat) (p : string) (i t : Z)
    (r : string * string) :
  splitext_loop n p i t = Some r →
  r = (take (Z.to_nat t) p, drop (Z.to_nat t) p).
Proof.
  revert i. induction n as [|n IH]; intros i; cbn [splitext_loop]; [done|].
  destruct (i <? t); [|done].
  destruct (char_differs p i "."%char); [by intros [= <-] | apply IH].
Qed.

(** It stops early as soon as some character before the dot is no dot. *)
Lemma splitext_loop_hit (n : nat) (p : string) (i j t : Z) :
  i ≤ j < t → t - i ≤ Z.of_nat n →
  char_differs p j "."%char = true →
  splitext_loop n p i t = Some (take (Z.to_nat t) p, drop (Z.to_nat t) p).
Proof.
  revert i. induction n as [|n IH]; intros i Hj Hn Hchar; [lia|].
  cbn [splitext_loop].
  replace (i <? t) with true by (symmetry; apply Z.ltb_lt; lia).
  destruct (char_differs p i "."%char) eqn:Hi; [done|].
  apply IH; [|lia|done].
  destruct (decide (i = j)) as [->|]; [congruence | lia].
Qed.

(** It runs to the end in a longer string when it does in a shorter one. *)
Lemma splitext_loop_None_app (n : nat) (p x : string) (i t : Z) :
  0 ≤ i → t ≤ Z.of_nat (String.length p) →
  splitext_loop n p i t = None →
  splitext_loop n (p +:+ x) i t = None.
Proof.
  revert i. induction n as [|n IH]; intros i Hi Ht; cbn [splitext_loop];
    [done|].
  destruct (Z.ltb_spec i t); [|done].
  rewrite char_differs_app_l by lia.
  destruct (char_differs p i "."%char); [done|]. apply IH; lia.
Qed.

(** The two shapes of what [splitext] returns: the whole path and no
    extension, or a split at the last dot, behind which there is neither a
    dot nor a separator. *)
Lemma splitext_shape (p : string) :
  (splitext p = (p, "") ∧
   ((rfind "/"%char p <? rfind "."%char p) = false ∨
    splitext_loop
      (Z.to_nat (rfind "."%char p - (rfind "/"%char p + 1))) p
      (rfind "/"%char p + 1) (rfind "."%char p) = None))
  ∨
  (∃ rest,
     splitext p =
       (take (Z.to_nat (rfind "."%char p)) p, String "."%char rest) ∧
     drop (Z.to_nat (rfind "."%char p)) p = String "."%char rest ∧
     rfind "."%char rest < 0 ∧ rfind "/"%char rest < 0).
Proof.
  unfold splitext.
  pose proof (rfind_bounds "/"%char p) as Hs.
  pose proof (rfind_bounds "."%char p) as Ht.
  destruct (Z.ltb_spec (rfind "/"%char p) (rfind "."%char p)) as [Hlt|Hge];
    [|left; split; [done | by left]].
  destruct (splitext_loop _ p _ _) as [r|] eqn:Hloop;
    [|left; split; [done | by right]].
  right. apply splitext_loop_Some in Hloop as ->.
  exists (drop (S (Z.to_nat (rfind "."%char p))) p).
  assert (drop (Z.to_nat (rfind "."%char p)) p =
          String "."%char (drop (S (Z.to_nat (rfind "."%char p))) p)) as Hdrop
    by (apply drop_get, rfind_get; lia).
  split; [by rewrite Hdrop|]. split; [done|].
  split; apply rfind_drop; lia.
Qed.

(** X5: [splitext] loses nothing: root and extension put together are the
    path. *)
Theorem splitext_join (p : string) : (splitext p).1 +:+ (splitext p).2 = p.
Proof.
  destruct (splitext_shape p) as [[-> _] | (rest & -> & <- & _)]; cbn.
  - apply str_app_nil_r.
  - apply str_take_drop.
Qed.

(** X6: the extension [splitext] returns is empty, and the root is then the
    whole path, or it is a dot followed by characters among which there is
    neither a dot nor a ["/"]. *)
Theorem splitext_extension (p : string) :
  ((splitext p).2 = "" ∧ (splitext p).1 = p) ∨
  ∃ rest, (splitext p).2 = String "."%char rest ∧
          rfind "."%char rest < 0 ∧ rfind "/"%char rest < 0.
Proof.
  destruct (splitext_shape p) as [[-> _] | (rest & -> & _ & Hdot & Hsep)].
  - by left.
  - right. by exists rest.
Qed.

(** Putting [_thumbnail] between two strings makes them ten characters
    longer, hence different. *)
Lemma thumbnail_infix (root ext : string) :
  String.length (root +:+ "_thumbnail" +:+ ext)
  = (String.length (root +:+ ext) + 10)%nat ∧
  root +:+ "_thumbnail" +:+ ext ≠ root +:+ ext.
Proof.
  assert (String.length (root +:+ "_thumbnail" +:+ ext)
          = (String.length (root +:+ ext) + 10)%nat) as Hlen.
  { rewrite !str_length_app. cbn. lia. }
  split; [done|]. intros Heq. rewrite Heq in Hlen. lia.
Qed.

End splitext_facts.

(** ** More on the thumbnail path *)

Section thumbnail_name_facts.

Import Py media_file.

(** [splitext] finds an extension after a root that has something else than
    dots in its last component. *)
Lemma splitext_root_ext (q rest : string) (j : Z) :
  rfind "."%char rest < 0 → rfind "/"%char rest < 0 →
  rfind "/"%char q < j < Z.of_nat (String.length q) →
  char_differs q j "."%char = true →
  splitext (q +:+ String "."%char rest) = (q, String "."%char rest).
Proof.
  intros Hdot Hsep Hj Hchar. unfold splitext.
  pose proof (rfind_bounds "/"%char q) as Hq.
  assert (rfind "."%char (q +:+ String "."%char rest)
          = Z.of_nat (String.length q)) as ->.
  { rewrite rfind_app, rfind_cons.
    replace (rfind "."%char rest <? 0) with true
      by (symmetry; by apply Z.ltb_lt).
    cbn. lia. }
  assert (rfind "/"%char (q +:+ String "."%char rest) = rfind "/"%char q)
    as ->.
  { rewrite rfind_app, rfind_cons.
    replace (rfind "/"%char rest <? 0) with true
      by (symmetry; by apply Z.ltb_lt).
    done. }
  replace (rfind "/"%char q <? Z.of_nat (String.length q)) with true
    by (symmetry; apply Z.ltb_lt; lia).
  rewrite (splitext_loop_hit _ _ _ j); [|lia|lia|].
  - by rewrite Nat2Z.id, str_take_app_all, str_drop_app_all.
  - by rewrite char_differs_app_l by lia.
Qed.

(** [splitext] finds no extension in a path without extension that grows
    by characters other than dots and separators. *)
Lemma splitext_whole_app (p x : string) :
  (splitext p).2 = "" →
  rfind "."%char x < 0 → rfind "/"%char x < 0 →
  splitext (p +:+ x) = (p +:+ x, "").
Proof.
  intros Hext Hdot Hsep.
  pose proof (rfind_bounds "/"%char p) as Hs.
  pose proof (rfind_bounds "."%char p) as Ht.
  destruct (splitext_shape p) as [[_ Hwhole] | (rest & Heq & _)];
    [|by rewrite Heq in Hext].
  unfold splitext. rewrite !rfind_app.
  replace (rfind "."%char x <? 0) with true by (symmetry; by apply Z.ltb_lt).
  replace (rfind "/"%char x <? 0) with true by (symmetry; by apply Z.ltb_lt).
  destruct Hwhole as [-> | Hloop]; [done|].
  destruct (rfind "/"%char p <? rfind "."%char p); [|done].
  by rewrite splitext_loop_None_app by (done || lia).
Qed.

(** X7: the thumbnail path requested for a new media file is never the name
    of the file itself: it is ten characters longer. *)
Theorem upload_path_thumbnail_fresh_name (w : World) (instance : MediaFile)
    (file_name filename : string) :
  truthy_int (id instance) = false →
  Django.name (file instance) = Some file_name →
  ∃ path,
    upload_path_thumbnail w instance filename = Ok path ∧
    String.length path = (String.length file_name + 10)%nat ∧
    path ≠ file_name.
Proof.
  intros Hid Hname.
  rewrite (upload_path_thumbnail_unpersisted w instance file_name) by done.
  eexists. split; [done|].
  pose proof (thumbnail_infix (splitext file_name).1 (splitext file_name).2)
    as Hinfix.
  assert ((splitext file_name).1 +:+ (splitext file_name).2 = file_name)
    as Hjoin.
  { destruct (splitext_shape file_name)
      as [[-> _] | (rest & -> & <- & _)]; cbn [fst snd].
    - apply str_app_nil_r.
    - apply str_take_drop. }
  by rewrite Hjoin in Hinfix.
Qed.

Lemma upload_path_thumbnail_fresh_name_witness :
  let w := samples.world samples.march_2024 ∅ samples.readable in
  let instance :=
    samples.media None (Some "2024/03/photo.jpg") None "image/jpeg" None in
  ∃ path,
    upload_path_thumbnail w instance "photo.jpg" = Ok path ∧
    String.length path = (String.length "2024/03/photo.jpg" + 10)%nat ∧
    path ≠ "2024/03/photo.jpg".
Proof.
  intros w instance.
  apply (upload_path_thumbnail_fresh_name w instance "2024/03/photo.jpg");
    reflexivity.
Defined.

(** X8: the thumbnail path requested for a new media file has the extension
    of the file, and the root of the file followed by [_thumbnail] as its
    root. *)
Theorem upload_path_thumbnail_keeps_extension (w : World)
    (instance : MediaFile) (file_name filename : string) :
  truthy_int (id instance) = false →
  Django.name (file instance) = Some file_name →
  ∃ path,
    upload_path_thumbnail w instance filename = Ok path ∧
    splitext path =
      ((splitext file_name).1 +:+ "_thumbnail", (splitext file_name).2).
Proof.
  intros Hid Hname.
  rewrite (upload_path_thumbnail_unpersisted w instance file_name) by done.
  eexists. split; [done|].
  destruct (splitext_shape file_name)
    as [[Heq _] | (rest & -> & _ & Hdot & Hsep)]; cbn [fst snd].
  - rewrite Heq. cbn [fst snd]. rewrite str_app_nil_r.
    apply splitext_whole_app; [by rewrite Heq | done..].
  - set (root := take (Z.to_nat (rfind "."%char file_name)) file_name).
    pose proof (rfind_bounds "/"%char root) as Hroot.
    rewrite <- str_app_assoc.
    apply (splitext_root_ext _ _ (Z.of_nat (String.length root)));
      [done|done| |].
    + rewrite rfind_app, str_length_app. cbn. lia.
    + unfold char_differs. rewrite Nat2Z.id.
      rewrite <- (Nat.add_0_r (String.length root)).
      by rewrite str_get_app.
Qed.

Lemma upload_path_thumbnail_keeps_extension_witness :
  let w := samples.world samples.march_2024 ∅ samples.readable in
  let instance :=
    samples.media None (Some "sites/7/2024/03/a.b/.photo.tar.gz") None
      "application/gzip" (Some 7) in
  ∃ path,
    upload_path_thumbnail w instance "t.gz" = Ok path ∧
    splitext path =
      ((splitext "sites/7/2024/03/a.b/.photo.tar.gz").1 +:+ "_thumbnail",
       (splitext "sites/7/2024/03/a.b/.photo.tar.gz").2).
Proof.
  intros w instance.
  apply (upload_path_thumbnail_keeps_extension w instance
           "sites/7/2024/03/a.b/.photo.tar.gz"); reflexivity.
Defined.

(** X9: the thumbnail path requested for a new media file lies in the
    directory of the file, whatever that directory is: only the last
    component of the name is split. *)
Theorem upload_path_thumbnail_same_directory (w : World)
    (instance : MediaFile) (directory base filename : string) :
  truthy_int (id instance) = false →
  Django.name (file instance) = Some (directory +:+ "/" +:+ base) →
  upload_path_thumbnail w instance filename =
  Ok (directory +:+ "/" +:+
      (splitext base).1 +:+ "_thumbnail" +:+ (splitext base).2).
Proof.
  intros Hid Hname.
  rewrite (upload_path_thumbnail_unpersisted w instance _ _ Hid Hname).
  rewrite splitext_dir. cbn [fst snd]. by rewrite !str_app_assoc.
Qed.

Lemma upload_path_thumbnail_same_directory_witness :
  upload_path_thumbnail
    (samples.world samples.march_2024 ∅ samples.readable)
    (samples.media None (Some "sites/7/2024/03/A_EOHRFQ2.jpg") None
       "image/jpeg" (Some 7))
    "A_thumbnail.jpg"
  = Ok ("sites/7/2024/03" +:+ "/" +:+
        (splitext "A_EOHRFQ2.jpg").1 +:+ "_thumbnail" +:+
        (splitext "A_EOHRFQ2.jpg").2).
Proof.
  apply (upload_path_thumbnail_same_directory
           (samples.world samples.march_2024 ∅ samples.readable)
           (samples.media None (Some "sites/7/2024/03/A_EOHRFQ2.jpg") None
              "image/jpeg" (Some 7))
           "sites/7/2024/03" "A_EOHRFQ2.jpg" "A_thumbnail.jpg");
    reflexivity.
Defined.

End thumbnail_name_facts.

(** ** More on upload paths: rows that are gone or empty, and regions *)

Section upload_path_edge_facts.

Import Py media_file.

Lemma upload_path_thumbnail_stable_witness :
  let original :=
    samples.media (Some 5) (Some "2023/11/logo.png")
      (Some "2023/11/logo_thumbnail.png") "image/png" None in
  let instance :=
    samples.media (Some 5) (Some "2024/03/new.png") None "image/png" None in
  let w :=
    samples.world samples.march_2024 {[ 5 := original ]} samples.readable in
  ∃ stored, Django.name (thumbnail original) = Some stored ∧
            ∀ filename, upload_path_thumbnail w instance filename = Ok stored.
Proof.
  intros original instance w.
  apply (upload_path_thumbnail_stable w instance original 5); reflexivity.
Defined.

(** X2: for an instance that has a primary key but no row in the table,
    both path functions raise [DoesNotExist], whatever the file name. *)
Theorem upload_paths_missing_row (w : World) (instance : MediaFile)
    (pk : Z) (filename : string) :
  id instance = Some pk →
  truthy_int (id instance) = true →
  objects w !! pk = None →
  upload_path w instance filename = Raise DoesNotExist ∧
  upload_path_thumbnail w instance filename = Raise DoesNotExist.
Proof.
  intros Hid Hset Hrow. unfold upload_path, upload_path_thumbnail.
  rewrite Hset. unfold objects_get. by rewrite Hid, Hrow.
Qed.

Lemma upload_paths_missing_row_witness :
  let w := samples.world samples.march_2024 ∅ samples.readable in
  let instance :=
    samples.media (Some 5) (Some "logo.png") None "image/png" None in
  upload_path w instance "logo.png" = Raise DoesNotExist ∧
  upload_path_thumbnail w instance "logo.png" = Raise DoesNotExist.
Proof.
  intros w instance.
  apply (upload_paths_missing_row w instance 5 "logo.png"); reflexivity.
Defined.

(** X3: when the row of an instance holds no file, [upload_path] requests
    the path it requests for a new instance, from the region of the
    instance, the clock and the file name. *)
Theorem upload_path_empty_row (w : World) (instance original : MediaFile)
    (pk : Z) (filename : string) :
  id instance = Some pk →
  objects w !! pk = Some original →
  Django.truthy (file original) = false →
  upload_path w instance filename = upload_path w (unsaved instance) filename.
Proof.
  intros Hid Hrow Hfile. unfold upload_path, unsaved.
  cbn [id region truthy_int]. rewrite Hid.
  destruct (truthy_int (Some pk)); [|done].
  unfold objects_get. rewrite Hrow. cbn.
  unfold Django.truthy, truthy_str in Hfile.
  by destruct (Django.name (file original)) as [[|a s]|].
Qed.

Lemma upload_path_empty_row_witness :
  let original := samples.media (Some 5) (Some "") None "image/png" (Some 7) in
  let instance :=
    samples.media (Some 5) (Some "logo.png") None "image/png" (Some 7) in
  let w :=
    samples.world samples.june_2025 {[ 5 := original ]} samples.readable in
  upload_path w instance "logo.png"
  = upload_path w (unsaved instance) "logo.png".
Proof.
  intros original instance w.
  apply (upload_path_empty_row w instance original 5 "logo.png"); reflexivity.
Defined.

(** X4: when the row of an instance holds no thumbnail,
    [upload_path_thumbnail] derives the path as for a new instance, from
    the file name of the instance at hand and not from the row. *)
Theorem upload_path_thumbnail_empty_row (w : World)
    (instance original : MediaFile) (pk : Z) (filename : string) :
  id instance = Some pk →
  objects w !! pk = Some original →
  Django.truthy (thumbnail original) = false →
  upload_path_thumbnail w instance filename =
  upload_path_thumbnail w (unsaved instance) filename.
Proof.
  intros Hid Hrow Hthumb. unfold upload_path_thumbnail, unsaved.
  cbn [id file truthy_int]. rewrite Hid.
  destruct (truthy_int (Some pk)); [|done].
  unfold objects_get. rewrite Hrow. cbn.
  unfold Django.truthy, truthy_str in Hthumb.
  by destruct (Django.name (thumbnail original)) as [[|a s]|].
Qed.

Lemma upload_path_thumbnail_empty_row_witness :
  let original :=
    samples.media (Some 5) (Some "2023/11/old.png") None "image/png" None in
  let instance :=
    samples.media (Some 5) (Some "2024/03/new.png") None "image/png" None in
  let w :=
    samples.world samples.march_2024 {[ 5 := original ]} samples.readable in
  upload_path_thumbnail w instance "t.png"
  = upload_path_thumbnail w (unsaved instance) "t.png".
Proof.
  intros original instance w.
  apply (upload_path_thumbnail_empty_row w instance original 5 "t.png");
    reflexivity.
Defined.

(** The thumbnail then follows the new file, not the stored one. *)
Example upload_path_thumbnail_follows_new_file :
  upload_path_thumbnail
    (samples.world samples.march_2024
       {[ 5 := samples.media (Some 5) (Some "2023/11/old.png") None
                 "image/png" None ]}
       samples.readable)
    (samples.media (Some 5) (Some "2024/03/new.png") None "image/png" None)
    "t.png"
  = Ok "2024/03/new_thumbnail.png".
Proof. reflexivity. Qed.

End upload_path_edge_facts.

(** ** Upload paths of different regions *)

Section upload_path_region_facts.

Import Py media_file.

(** Two strings without [c] that are followed by a [c] are told apart by
    what follows them. *)
Lemma app_sep_inj (c : ascii) (s1 s2 x y : string) :
  rfind c s1 < 0 → rfind c s2 < 0 →
  s1 +:+ String c x = s2 +:+ String c y → s1 = s2.
Proof.
  revert s2. induction s1 as [|a s1 IH]; intros [|b s2] H1 H2;
    rewrite ?str_app_nil_l, ?str_app_cons; try done.
  - intros [= <- _]. apply rfind_cons_neg in H2. naive_solver.
  - intros [= -> _]. apply rfind_cons_neg in H1. naive_solver.
  - apply rfind_cons_neg in H1 as [_ H1]. apply rfind_cons_neg in H2 as [_ H2].
    intros [= -> Heq]. f_equal. by apply IH.
Qed.

(** The digits hold no ["/"], so neither does a printed number. *)
Lemma rfind_pretty_N_go (x : N) (s : string) :
  rfind "/"%char s < 0 → rfind "/"%char (pretty_N_go x s) < 0.
Proof.
  revert s. induction (N.lt_wf_0 x) as [x _ IH]. intros s Hs.
  destruct (decide (x = 0)%N) as [->|Hx]; [by rewrite pretty_N_go_0|].
  rewrite pretty_N_go_step by lia. apply IH.
  - apply N.div_lt; lia.
  - apply rfind_cons_neg. split; [|done].
    unfold pretty_N_char. by repeat case_match.
Qed.

Lemma rfind_str_int (n : Z) : rfind "/"%char (str_int n) < 0.
Proof.
  unfold str_int, pretty, pretty_Z, pretty, pretty_positive, pretty, pretty_N.
  destruct n as [|x|x]; [done| |].
  - case_decide; [done|]. by apply rfind_pretty_N_go.
  - change ("-" +:+ ?s) with (String "-"%char s).
    apply rfind_cons_neg. split; [done|].
    case_decide; [done|]. by apply rfind_pretty_N_go.
Qed.

(** A printed number starts with a digit or a sign, never with the [s] of
    [sites]. *)
Lemma pretty_N_go_head (x : N) (s : string) :
  (∀ rest, s ≠ String "s"%char rest) →
  ∀ rest, pretty_N_go x s ≠ String "s"%char rest.
Proof.
  revert s. induction (N.lt_wf_0 x) as [x _ IH]. intros s Hs.
  destruct (decide (x = 0)%N) as [->|Hx]; [by rewrite pretty_N_go_0|].
  rewrite pretty_N_go_step by lia. apply IH.
  - apply N.div_lt; lia.
  - intros rest. unfold pretty_N_char. by repeat case_match.
Qed.

Lemma str_int_head (n : Z) (rest : string) :
  str_int n ≠ String "s"%char rest.
Proof.
  unfold str_int, pretty, pretty_Z, pretty, pretty_positive, pretty, pretty_N.
  destruct n as [|x|x]; [done| |].
  - case_decide; [done|]. by apply pretty_N_go_head.
  - done.
Qed.

(** X10: new media files of two different regions never get the same
    upload path, whatever their file names and whenever they are saved. *)
Theorem upload_path_regions_apart (w1 w2 : World) (i1 i2 : MediaFile)
    (r1 r2 : region.Region) (f1 f2 : string) :
  truthy_int (id i1) = false → truthy_int (id i2) = false →
  region i1 = Some r1 → region i2 = Some r2 →
  region.id r1 ≠ region.id r2 →
  upload_path w1 i1 f1 ≠ upload_path w2 i2 f2.
Proof.
  intros Hid1 Hid2 Hr1 Hr2 Hne.
  rewrite !upload_path_requested, Hr1, Hr2 by done.
  intros [= Heq]. apply Hne. rewrite !str_app_nil_l in Heq.
  apply (inj pretty).
  eapply (app_sep_inj "/"%char); [apply rfind_str_int..|exact Heq].
Qed.

Lemma upload_path_regions_apart_witness :
  upload_path
    (samples.world samples.march_2024 ∅ samples.readable)
    (samples.media None None None "image/png" (Some 7)) "logo.png"
  ≠ upload_path
      (samples.world samples.march_2024 ∅ samples.readable)
      (samples.media None None None "image/png" (Some 71)) "logo.png".
Proof.
  apply (upload_path_regions_apart _ _ _ _
           {| region.id := 7 |} {| region.id := 71 |});
    [reflexivity..| cbn; lia].
Defined.

(** X11: a new global media file and a new media file of a region never
    get the same upload path either: the one starts with the year, the other
    with [sites/]. *)
Theorem upload_path_global_apart (w1 w2 : World) (i1 i2 : MediaFile)
    (r2 : region.Region) (f1 f2 : string) :
  truthy_int (id i1) = false → truthy_int (id i2) = false →
  region i1 = None → region i2 = Some r2 →
  upload_path w1 i1 f1 ≠ upload_path w2 i2 f2.
Proof.
  intros Hid1 Hid2 Hr1 Hr2.
  rewrite !upload_path_requested, Hr1, Hr2 by done.
  intros [= Heq]. cbn [strftime] in Heq.
  destruct (str_int (tm_year (now w1))) as [|a year] eqn:Hyear.
  - by rewrite !str_app_nil_l in Heq.
  - rewrite !str_app_cons in Heq. injection Heq as -> _.
    by apply str_int_head in Hyear.
Qed.

Lemma upload_path_global_apart_witness :
  upload_path
    (samples.world samples.march_2024 ∅ samples.readable)
    (samples.media None None None "image/png" None) "sites/7/logo.png"
  ≠ upload_path
      (samples.world samples.march_2024 ∅ samples.readable)
      (samples.media None None None "image/png" (Some 7)) "logo.png".
Proof.
  apply (upload_path_global_apart _ _ _ _ {| region.id := 7 |});
    reflexivity.
Defined.

End upload_path_region_facts.

(** ** More on URLs and serialization *)

Section serialize_more_facts.

Import Py media_file.

(** X12: the [url] property never raises: it is [None] exactly for a media
    file without file, and [BASE_URL] followed by the URL of the file
    otherwise. *)
Theorem url_guarded (w : World) (self : MediaFile) :
  (∃ u, url w self = Ok u) ∧
  (url w self = Ok None ↔ Django.truthy (file self) = false) ∧
  (∀ n, Django.truthy (file self) = true →
        Django.name (file self) = Some n →
        url w self = Ok (Some (BASE_URL w +:+ storage_url w n))).
Proof.
  rewrite url_total. split; [by eexists|].
  unfold Django.truthy, truthy_str.
  destruct (Django.name (file self)) as [[|a s]|]; cbn; split; try done.
  - by intros n _ [= <-].
Qed.

Lemma url_guarded_witness :
  let w := samples.world samples.march_2024 ∅ samples.readable in
  let self :=
    samples.media (Some 5) (Some "2024/03/logo.png") None "image/png" None in
  url w self
  = Ok (Some (BASE_URL w +:+ storage_url w "2024/03/logo.png")).
Proof.
  intros w self.
  apply (proj2 (proj2 (url_guarded w self))); reflexivity.
Defined.

(** X13: [thumbnail_url] is [None] exactly for a media file without
    thumbnail that is no image or has no file. *)
Theorem thumbnail_url_None (w : World) (self : MediaFile) :
  thumbnail_url w self = Ok None ↔
  Django.truthy (thumbnail self) = false ∧
  (startswith (type self) "image" = false ∨
   Django.truthy (file self) = false).
Proof.
  unfold thumbnail_url.
  destruct (Django.truthy (thumbnail self)) eqn:Ht; cbn.
  - unfold Django.truthy, truthy_str in Ht. unfold Django.with_file.
    destruct (Django.name (thumbnail self)) as [[|a s]|]; try done.
    cbn. naive_solver.
  - destruct (startswith (type self) "image"); [|naive_solver].
    rewrite url_total. destruct (Django.truthy (file self)) eqn:Hf;
      [|naive_solver].
    unfold Django.truthy, truthy_str in Hf.
    destruct (Django.name (file self)) as [[|a s]|]; try done.
    cbn. naive_solver.
Qed.

(** What [serialize] puts under [thumbnailUrl]: the thumbnail URL, or the
    thumbnail URL, a question mark and the modification time of the file. *)
Lemma serialize_inv_thumbnail (w : World) (self : MediaFile)
    (d : gmap string value) :
  serialize w self = Ok d →
  ∃ tu tu1 su,
    thumbnail_url w self = Ok tu ∧ url w self = Ok su ∧
    d = serialized w self tu1 su ∧
    (tu1 = tu ∨
     ∃ u path mtime,
       tu = Some u ∧ truthy_str tu = true ∧
       Django.with_file (file self) (storage_path w) = Ok path ∧
       getmtime w path = Ok mtime ∧ tu1 = Some (u +:+ "?" +:+ mtime)).
Proof.
  destruct (thumbnail_url_total w self) as [tu Htu].
  rewrite (serialize_step w self tu Htu), url_total. intros Hd.
  exists tu. destruct (truthy_str tu) eqn:Htruthy.
  - destruct (Django.with_file _ _) as [path|] eqn:Hpath; [|done].
    cbn in Hd. destruct (getmtime w path) as [mtime|[]] eqn:Hg;
      cbn in Hd; try done.
    + destruct tu as [u|]; [|done]. injection Hd as <-.
      eexists _, _. repeat split; [done|]. right. by eexists _, _, _.
    + injection Hd as <-. eexists _, _. repeat split; [done|]. by left.
  - cbn in Hd. injection Hd as <-. eexists _, _. repeat split; [done|].
    by left.
Qed.

Lemma serialized_url (w : World) (self : MediaFile) (tu su : option string) :
  serialized w self tu su !! "url" = Some (of_str su).
Proof.
  unfold serialized. repeat (rewrite lookup_insert_ne by done).
  apply lookup_insert_eq.
Qed.

(** X14: every dictionary [serialize] returns has the nine keys, holds the
    [url] property under [url], and holds [None] under [thumbnailUrl]
    exactly when the [thumbnail_url] property is [None]. *)
Theorem serialize_entries (w : World) (self : MediaFile)
    (d : gmap string value) :
  serialize w self = Ok d →
  dom d = keys ∧
  (∃ su, url w self = Ok su ∧ d !! "url" = Some (of_str su)) ∧
  (d !! "thumbnailUrl" = Some VNone ↔ thumbnail_url w self = Ok None).
Proof.
  intros Hd.
  apply serialize_inv_thumbnail in Hd
    as (tu & tu1 & su & Htu & Hsu & -> & Htu1).
  split; [apply serialized_dom|]. split.
  - exists su. split; [done|]. apply serialized_url.
  - rewrite serialized_thumbnailUrl, Htu.
    destruct Htu1 as [-> | (u & path & mtime & -> & _ & _ & _ & ->)].
    + destruct tu; cbn; naive_solver.
    + cbn. naive_solver.
Qed.

Lemma serialize_entries_witness :
  let w := samples.world samples.march_2024 ∅ samples.readable in
  let self :=
    samples.media (Some 6) (Some "2024/03/form.pdf") None "application/pdf"
      None in
  ∃ d, serialize w self = Ok d ∧
       dom d = keys ∧
       (∃ su, url w self = Ok su ∧ d !! "url" = Some (of_str su)) ∧
       (d !! "thumbnailUrl" = Some VNone ↔ thumbnail_url w self = Ok None).
Proof.
  intros w self. eexists. split; [reflexivity|].
  apply (serialize_entries w self). reflexivity.
Defined.

(** X15: when the media file has a thumbnail URL and the modification time
    of its file can be read, [serialize] puts the URL, a question mark and
    that time under [thumbnailUrl]. *)
Theorem serialize_cache_busting (w : World) (self : MediaFile)
    (a : ascii) (u path mtime : string) :
  thumbnail_url w self = Ok (Some (String a u)) →
  Django.with_file (file self) (storage_path w) = Ok path →
  getmtime w path = Ok mtime →
  ∃ d, serialize w self = Ok d ∧
       d !! "thumbnailUrl" = Some (VStr (String a u +:+ "?" +:+ mtime)).
Proof.
  intros Htu Hpath Hg.
  rewrite (serialize_step w self _ Htu), url_total. cbn.
  rewrite Hpath. cbn. rewrite Hg. cbn.
  eexists. split; [done|]. apply serialized_thumbnailUrl.
Qed.

Lemma serialize_cache_busting_witness :
  let w := samples.world samples.march_2024 ∅ samples.readable in
  let self :=
    samples.media (Some 7) (Some "2024/03/logo.png")
      (Some "2024/03/logo_thumbnail.png") "image/png" None in
  ∃ d, serialize w self = Ok d ∧
       d !! "thumbnailUrl" =
       Some (VStr ("http://localhost:8000/media/2024/03/logo_thumbnail.png"
                   +:+ "?" +:+ "1700000000.25")).
Proof.
  intros w self.
  apply (serialize_cache_busting w self "h"
           "ttp://localhost:8000/media/2024/03/logo_thumbnail.png"
           "/var/www/cms/media/2024/03/logo.png" "1700000000.25");
    reflexivity.
Defined.

(** X16: when the media file has no thumbnail URL, [serialize] does not
    look at the file system: it returns the same dictionary, with [None]
    or the empty URL under [thumbnailUrl], whatever [getmtime] would do. *)
Theorem serialize_without_thumbnail_url (w : World) (self : MediaFile)
    (tu : option string) :
  thumbnail_url w self = Ok tu →
  truthy_str tu = false →
  ∃ d, serialize w self = Ok d ∧
       d !! "thumbnailUrl" = Some (of_str tu) ∧
       ∀ g, serialize (with_getmtime w g) self = Ok d.
Proof.
  intros Htu Hfalsy.
  assert (∀ g, serialize (with_getmtime w g) self
               = Ok (serialized w self tu
                       (if Django.truthy (file self)
                        then (λ n, BASE_URL w +:+ storage_url w n)
                               <$> Django.name (file self)
                        else None))) as Hany.
  { intros g.
    rewrite (serialize_step (with_getmtime w g) self tu Htu), url_total.
    by rewrite Hfalsy. }
  eexists. split; [|split; [apply serialized_thumbnailUrl | exact Hany]].
  rewrite (serialize_step w self tu Htu), url_total. by rewrite Hfalsy.
Qed.

Lemma serialize_without_thumbnail_url_witness :
  let w := samples.world samples.march_2024 ∅ samples.unreadable in
  let self :=
    samples.media (Some 6) (Some "2024/03/form.pdf") None "application/pdf"
      None in
  ∃ d, serialize w self = Ok d ∧
       d !! "thumbnailUrl" = Some (of_str None) ∧
       ∀ g, serialize (with_getmtime w g) self = Ok d.
Proof.
  intros w self.
  apply (serialize_without_thumbnail_url w self None); reflexivity.
Defined.

(** X17: [serialize] raises in two cases only, both with a thumbnail URL at
    hand: with [ValueError] when the media file has no file whose path
    could be looked at, and with whatever [getmtime] raises other than
    [OSError]. *)
Theorem serialize_raises (w : World) (self : MediaFile) (e : exn) :
  serialize w self = Raise e ↔
  ∃ tu, thumbnail_url w self = Ok tu ∧ truthy_str tu = true ∧
        ((Django.truthy (file self) = false ∧ e = ValueError) ∨
         (∃ path,
            Django.with_file (file self) (storage_path w) = Ok path ∧
            getmtime w path = Raise e ∧ e ≠ OSError)).
Proof.
  destruct (thumbnail_url_total w self) as [tu Htu].
  rewrite (serialize_step w self tu Htu), url_total. split.
  - intros Hraise. exists tu. split; [done|].
    destruct (truthy_str tu); [|done]. split; [done|].
    unfold Django.with_file, Django.truthy, truthy_str in *.
    destruct (Django.name (file self)) as [[|a s]|]; cbn in Hraise.
    + left. by injection Hraise as <-.
    + right. eexists. split; [done|].
      destruct (getmtime w _) as [mtime|[]]; cbn in Hraise; try done;
        by injection Hraise as <-.
    + left. by injection Hraise as <-.
  - intros (tu' & Htu' & Htruthy & Hcase).
    assert (tu' = tu) as -> by congruence. rewrite Htruthy.
    destruct Hcase as [[Hfile ->] | (path & -> & Hg & Hne)].
    + unfold Django.with_file, Django.truthy, truthy_str in *.
      by destruct (Django.name (file self)) as [[|a s]|].
    + cbn. rewrite Hg. by destruct e.
Qed.

Lemma serialize_raises_witness :
  serialize
    (samples.world samples.march_2024 ∅ samples.readable)
    (samples.media (Some 5) None (Some "2024/03/logo_thumbnail.png")
       "image/png" None)
  = Raise ValueError.
Proof.
  apply (proj2 (serialize_raises _ _ ValueError)).
  exists (Some "http://localhost:8000/media/2024/03/logo_thumbnail.png").
  split; [reflexivity|]. split; [reflexivity|]. left. split; reflexivity.
Defined.

Lemma label_not_choice (choices : list (string * string)) (v : string) :
  v ∉ choices.*1 → label choices v = None.
Proof.
  induction choices as [|[k l] rest IH]; [done|]. cbn.
  rewrite not_elem_of_cons. intros [Hne Hrest]. rewrite (IH Hrest).
  destruct (String.eqb_spec k v); [congruence | done].
Qed.

Lemma label_choice (choices : list (string * string)) (v l : string) :
  NoDup choices.*1 → (v, l) ∈ choices → label choices v = Some l.
Proof.
  induction choices as [|[k l'] rest IH]; [by intros _ ?%elem_of_nil|].
  cbn. rewrite NoDup_cons, elem_of_cons. intros [Hk Hnodup] [[= <- <-]|Hin].
  - rewrite label_not_choice by done. by rewrite String.eqb_refl.
  - by rewrite (IH Hnodup Hin).
Qed.

(** X18: the display name of the type of a media file is the label that the
    choices give it, when their keys are distinct, and the type itself when
    it is no choice. *)
Theorem get_type_display_cases (w : World) (self : MediaFile) :
  (type self ∉ (CHOICES w).*1 → get_type_display w self = type self) ∧
  (∀ l, NoDup (CHOICES w).*1 → (type self, l) ∈ CHOICES w →
        get_type_display w self = l).
Proof.
  unfold get_type_display, display. split.
  - intros Hnot. by rewrite label_not_choice.
  - intros l Hnodup Hin. by rewrite (label_choice _ _ l).
Qed.

Lemma get_type_display_cases_witness :
  let w := samples.world samples.march_2024 ∅ samples.readable in
  get_type_display w
    (samples.media None None None "video/mp4" None) = "video/mp4" ∧
  get_type_display w
    (samples.media None None None "image/png" None) = "PNG image".
Proof.
  intros w. split.
  - apply (proj1 (get_type_display_cases w
                    (samples.media None None None "video/mp4" None))).
    vm_compute. intros H. repeat (apply elem_of_cons in H as [H|H];
      [discriminate H|]). by apply elem_of_nil in H.
  - apply (proj2 (get_type_display_cases w
                    (samples.media None None None "image/png" None))).
    + repeat (apply NoDup_cons; split;
        [vm_compute; intros H; repeat (apply elem_of_cons in H as [H|H];
           [discriminate H|]); by apply elem_of_nil in H|]).
      apply NoDup_nil_2.
    + apply elem_of_cons. by left.
Defined.

End serialize_more_facts.

(** ** More on migration 0005 *)

Section migration_0005_more_facts.

Import Py migration_0005.

Implicit Types (apps : Apps) (g : Group) (p : Permission).

Lemma elem_of_permissions_of apps (gid q : Z) :
  q ∈ permissions_of apps gid ↔ (gid, q) ∈ group_permissions apps.
Proof.
  unfold permissions_of. rewrite elem_of_map. split.
  - intros ([a b] & -> & Hin). apply elem_of_filter in Hin as [Ha Hin].
    cbn in *. by subst.
  - intros Hin. exists (gid, q). split; [done|]. by apply elem_of_filter.
Qed.

Lemma add_roles_inv apps added :
  add_roles apps = Ok added →
  ∃ g p, management apps = Ok g ∧ delete_imprint apps = Ok p ∧
         added = with_group_permissions apps
                   ({[ (group_id g, permission_id p) ]}
                    ∪ group_permissions apps).
Proof.
  unfold add_roles, management, delete_imprint.
  destruct (get (groups apps) _) as [g|]; [|done]. cbn.
  destruct (get (permissions apps) _) as [p|]; [|done]. cbn.
  intros [= <-]. by exists g, p.
Qed.

Lemma remove_roles_inv apps removed :
  remove_roles apps = Ok removed →
  ∃ g p, management apps = Ok g ∧ delete_imprint apps = Ok p ∧
         removed = with_group_permissions apps
                     (group_permissions apps
                      ∖ {[ (group_id g, permission_id p) ]}).
Proof.
  unfold remove_roles, management, delete_imprint.
  destruct (get (groups apps) _) as [g|]; [|done]. cbn.
  destruct (get (permissions apps) _) as [p|]; [|done]. cbn.
  intros [= <-]. by exists g, p.
Qed.

Lemma add_roles_Ok apps g p :
  management apps = Ok g → delete_imprint apps = Ok p →
  add_roles apps =
  Ok (with_group_permissions apps
        ({[ (group_id g, permission_id p) ]} ∪ group_permissions apps)).
Proof.
  unfold add_roles, management, delete_imprint. by intros -> ->.
Qed.

Lemma remove_roles_Ok apps g p :
  management apps = Ok g → delete_imprint apps = Ok p →
  remove_roles apps =
  Ok (with_group_permissions apps
        (group_permissions apps ∖ {[ (group_id g, permission_id p) ]})).
Proof.
  unfold remove_roles, management, delete_imprint. by intros -> ->.
Qed.

Lemma with_group_permissions_id apps :
  with_group_permissions apps (group_permissions apps) = apps.
Proof. by destruct apps. Qed.

(** X19: running [add_roles] a second time changes nothing, and after it
    the [MANAGEMENT] group holds the permission. *)
Theorem add_roles_idempotent apps added :
  add_roles apps = Ok added →
  add_roles added = Ok added ∧
  ∃ g p, management apps = Ok g ∧ delete_imprint apps = Ok p ∧
         permission_id p ∈ permissions_of added (group_id g).
Proof.
  intros (g & p & Hg & Hp & ->)%add_roles_inv. split.
  - rewrite (add_roles_Ok _ g p) by done. cbn. do 2 f_equal. set_solver.
  - exists g, p. split; [done|]. split; [done|].
    apply elem_of_permissions_of. cbn. set_solver.
Qed.

Lemma add_roles_idempotent_witness :
  ∃ added,
    add_roles samples.auth_tables = Ok added ∧
    add_roles added = Ok added ∧
    ∃ g p, management samples.auth_tables = Ok g ∧
           delete_imprint samples.auth_tables = Ok p ∧
           permission_id p ∈ permissions_of added (group_id g).
Proof.
  eexists. split; [reflexivity|].
  apply (add_roles_idempotent samples.auth_tables). reflexivity.
Defined.

(** X20: running [remove_roles] a second time changes nothing, and after
    it the [MANAGEMENT] group does not hold the permission. *)
Theorem remove_roles_idempotent apps removed :
  remove_roles apps = Ok removed →
  remove_roles removed = Ok removed ∧
  ∃ g p, management apps = Ok g ∧ delete_imprint apps = Ok p ∧
         permission_id p ∉ permissions_of removed (group_id g).
Proof.
  intros (g & p & Hg & Hp & ->)%remove_roles_inv. split.
  - rewrite (remove_roles_Ok _ g p) by done. cbn. do 2 f_equal. set_solver.
  - exists g, p. split; [done|]. split; [done|].
    rewrite elem_of_permissions_of. cbn. set_solver.
Qed.

Lemma remove_roles_idempotent_witness :
  ∃ removed,
    remove_roles samples.auth_tables = Ok removed ∧
    remove_roles removed = Ok removed ∧
    ∃ g p, management samples.auth_tables = Ok g ∧
           delete_imprint samples.auth_tables = Ok p ∧
           permission_id p ∉ permissions_of removed (group_id g).
Proof.
  eexists. split; [reflexivity|].
  apply (remove_roles_idempotent samples.auth_tables). reflexivity.
Defined.

(** X21: neither function touches the groups, the permissions, the
    permissions of another group, or another permission of the
    [MANAGEMENT] group. *)
Theorem roles_frame apps after :
  add_roles apps = Ok after ∨ remove_roles apps = Ok after →
  groups after = groups apps ∧
  permissions after = permissions apps ∧
  ∃ g p, management apps = Ok g ∧ delete_imprint apps = Ok p ∧
         ∀ gid q, (gid, q) ≠ (group_id g, permission_id p) →
                  (q ∈ permissions_of after gid ↔ q ∈ permissions_of apps gid).
Proof.
  intros [(g & p & Hg & Hp & ->)%add_roles_inv
         |(g & p & Hg & Hp & ->)%remove_roles_inv];
    (split; [done|]); (split; [done|]); exists g, p;
    (split; [done|]); (split; [done|]); intros gid q Hne;
    rewrite !elem_of_permissions_of; cbn; set_solver.
Qed.

Lemma roles_frame_witness :
  ∃ after,
    add_roles samples.auth_tables = Ok after ∧
    groups after = groups samples.auth_tables ∧
    permissions after = permissions samples.auth_tables ∧
    ∃ g p, management samples.auth_tables = Ok g ∧
           delete_imprint samples.auth_tables = Ok p ∧
           ∀ gid q, (gid, q) ≠ (group_id g, permission_id p) →
                    (q ∈ permissions_of after gid ↔
                     q ∈ permissions_of samples.auth_tables gid).
Proof.
  eexists. split; [reflexivity|].
  apply (roles_frame samples.auth_tables). left. reflexivity.
Defined.

(** X22: when the [MANAGEMENT] group holds the permission already,
    [add_roles] changes nothing and [remove_roles] after it takes the
    permission away: the way back does not end where the way forth began. *)
Theorem remove_roles_add_roles_held_before apps g p :
  management apps = Ok g → delete_imprint apps = Ok p →
  (group_id g, permission_id p) ∈ group_permissions apps →
  add_roles apps = Ok apps ∧
  ∃ removed, remove_roles apps = Ok removed ∧ removed ≠ apps ∧
             permission_id p ∉ permissions_of removed (group_id g).
Proof.
  intros Hg Hp Hheld. split.
  - rewrite (add_roles_Ok _ g p) by done.
    replace ({[ (group_id g, permission_id p) ]} ∪ group_permissions apps)
      with (group_permissions apps) by set_solver.
    by rewrite with_group_permissions_id.
  - eexists. split; [by apply remove_roles_Ok|]. split.
    + intros Heq. apply (f_equal group_permissions) in Heq. cbn in Heq.
      set_solver.
    + rewrite elem_of_permissions_of. cbn. set_solver.
Qed.

Lemma remove_roles_add_roles_held_before_witness :
  let held :=
    with_group_permissions samples.auth_tables {[ (1, 10); (1, 11) ]} in
  add_roles held = Ok held ∧
  ∃ removed, remove_roles held = Ok removed ∧ removed ≠ held ∧
             11 ∉ permissions_of removed 1.
Proof.
  intros held.
  apply (remove_roles_add_roles_held_before held
           {| group_id := 1; group_name := "MANAGEMENT" |}
           {| permission_id := 11; codename := "delete_imprintpage" |});
    [reflexivity | reflexivity | vm_compute; reflexivity].
Defined.

(** X23: the other way round: when the [MANAGEMENT] group holds the
    permission, [add_roles] after [remove_roles] gives back the tables it
    started from. *)
Theorem add_roles_remove_roles apps g p :
  management apps = Ok g → delete_imprint apps = Ok p →
  (group_id g, permission_id p) ∈ group_permissions apps →
  ∃ removed, remove_roles apps = Ok removed ∧ add_roles removed = Ok apps.
Proof.
  intros Hg Hp Hheld. eexists. split; [by apply remove_roles_Ok|].
  rewrite (add_roles_Ok _ g p) by done.
  destruct apps as [gs ps gp]. unfold with_group_permissions. cbn in *.
  do 2 f_equal. apply set_eq. intros x. rewrite elem_of_union, elem_of_difference.
  destruct (decide (x = (group_id g, permission_id p))) as [->|]; set_solver.
Qed.

Lemma add_roles_remove_roles_witness :
  let held :=
    with_group_permissions samples.auth_tables {[ (1, 10); (1, 11) ]} in
  ∃ removed, remove_roles held = Ok removed ∧ add_roles removed = Ok held.
Proof.
  intros held.
  apply (add_roles_remove_roles held
           {| group_id := 1; group_name := "MANAGEMENT" |}
           {| permission_id := 11; codename := "delete_imprintpage" |});
    [reflexivity | reflexivity | vm_compute; reflexivity].
Defined.

(** X24: the two functions fail on the same tables and in the same way:
    with [DoesNotExist] or [MultipleObjectsReturned], as the look-up of the
    group, or else of the permission, does. *)
Theorem roles_fail_alike apps (e : exn) :
  (add_roles apps = Raise e ↔ remove_roles apps = Raise e) ∧
  (add_roles apps = Raise e →
   (e = DoesNotExist ∨ e = MultipleObjectsReturned) ∧
   (management apps = Raise e ∨
    (∃ g, management apps = Ok g) ∧ delete_imprint apps = Raise e)).
Proof.
  unfold add_roles, remove_roles, management, delete_imprint.
  assert (∀ A (rows : list A) test e',
            get rows test = Raise e' →
            e' = DoesNotExist ∨ e' = MultipleObjectsReturned) as Hget.
  { intros A rows test e'. unfold get.
    destruct (List.filter test rows) as [|? [|? ?]]; naive_solver. }
  destruct (get (groups apps) _) as [g|eg] eqn:Hg; cbn.
  - destruct (get (permissions apps) _) as [p|ep] eqn:Hp; cbn; [done|].
    split; [done|]. intros [= <-]. split; [by eapply Hget|].
    right. split; [by exists g | done].
  - split; [done|]. intros [= <-]. split; [by eapply Hget | by left].
Qed.

Lemma roles_fail_alike_witness :
  let apps := {| groups := []; permissions := []; group_permissions := ∅ |} in
  (DoesNotExist = DoesNotExist ∨ DoesNotExist = MultipleObjectsReturned) ∧
  (management apps = Raise DoesNotExist ∨
   (∃ g, management apps = Ok g) ∧ delete_imprint apps = Raise DoesNotExist).
Proof.
  intros apps.
  apply (proj2 (roles_fail_alike apps DoesNotExist)). reflexivity.
Defined.

End migration_0005_more_facts.

(** ** Migration 0089 *)

Section migration_0089_facts.

Import Py migration_0089.

Lemma is_choice_elem_of (choices : list (string * string)) (v : string) :
  site.is_choice choices v = true ↔ v ∈ choices.*1.
Proof.
  induction choices as [|[k l] rest IH]; cbn.
  - split; [done | by intros ?%elem_of_nil].
  - rewrite elem_of_cons, <- IH.
    destruct (String.eqb_spec v k); naive_solver.
Qed.

(** X25: the icon column admits no icon, the empty icon and the twenty-one
    icons of the migration, which differ from one another and count
    [mental_health] and [shelter] among them; validation refuses every
    other value. *)
Theorem icon_admits_choices :
  NoDup icon_choices.*1 ∧
  length icon_choices = 21%nat ∧
  "mental_health" ∈ icon_choices.*1 ∧ "shelter" ∈ icon_choices.*1 ∧
  ∀ value,
    validate_icon value = Ok () ↔
    value = None ∨ value = Some "" ∨
    ∃ icon, value = Some icon ∧ icon ∈ icon_choices.*1.
Proof.
  split; [by apply (bool_decide_unpack _)|]. split; [done|].
  split; [by apply (bool_decide_unpack _)|].
  split; [by apply (bool_decide_unpack _)|].
  assert (Forall (λ k, (String.length k ≤ icon_max_length)%nat)
            icon_choices.*1) as Hshort
    by (by apply (bool_decide_unpack _)).
  intros [[|a v]|]; cbn [validate_icon]; [naive_solver| |naive_solver].
  destruct (site.is_choice icon_choices (String a v)) eqn:Hchoice.
  - apply is_choice_elem_of in Hchoice.
    rewrite Forall_forall in Hshort. specialize (Hshort _ Hchoice).
    replace (icon_max_length <? String.length (String a v))%nat with false
      by (symmetry; apply Nat.ltb_ge; exact Hshort).
    naive_solver.
  - split; [done|]. intros [?|[?|(icon & [= <-] & Hin)]]; try done.
    apply is_choice_elem_of in Hin. congruence.
Qed.

Example validate_icon_shelter : validate_icon (Some "shelter") = Ok ().
Proof. reflexivity. Qed.

Example validate_icon_label :
  validate_icon (Some "Shelter") = Raise ValidationError.
Proof. reflexivity. Qed.

End migration_0089_facts.
